(** * Analytics backend: documents, auth and analytics queries

    A shallow embedding of the request handlers of the backend
    ([routes/documents.py], [routes/auth.py]) and of its analytics layer
    ([crud.py]), over the rows declared in [models.py] and the request
    bodies of [schemas.py].

    Conventions of the embedding:
    - a table is the list of its rows in scan order; a nullable column is
      an [option];
    - a handler that can raise returns a [result]; a handler that writes
      also returns the table contents after the request;
    - a [datetime] is the number of microseconds since 1970-01-01T00:00:00
      (naive UTC, as [datetime.utcnow()] yields it), a [timedelta] a number
      of microseconds; the clock reading of a request is an argument;
    - a Python [float] is the rational that the double denotes.  The
      percentages and rates of [crud.py] are computed as the code computes
      them, every operation rounding to the nearest double ([binary64]);
      the average and the regression of the growth operation are kept in
      exact arithmetic. *)

From Stdlib Require Import ZArith QArith Qround List String Ascii Bool Lia.
Import ListNotations.
Open Scope string_scope.
Open Scope Z_scope.

(* ================================================================== *)
(** * Python values, exceptions and containers *)

Module Py.

(** The exceptions that the embedded code can raise. *)
Inductive exn : Type :=
| NameError (name : string)
| ZeroDivisionError
| ValueError (raised_by : string)
| IndexError (raised_by : string)
| OverflowError (raised_by : string)
| HTTPException (status_code : Z) (detail : option string).

Inductive result (A : Type) : Type :=
| Ok (a : A)
| Raise (e : exn).
Arguments Ok {A} a.
Arguments Raise {A} e.

Definition bind {A B : Type} (r : result A) (k : A -> result B) : result B :=
  match r with
  | Ok a => k a
  | Raise e => Raise e
  end.

Definition datetime := Z.
Definition timedelta := Z.

(** [timedelta(minutes=m)]. *)
Definition timedelta_minutes (m : Z) : timedelta := m * 60 * 1000000.

(** [datetime.min] and [datetime.max]: the first microsecond of year 1
    and the last of year 9999. *)
Definition datetime_min : datetime := -62135596800000000.
Definition datetime_max : datetime := 253402300799999999.

Definition datetime_in_range (d : Z) : bool :=
  (datetime_min <=? d) && (d <=? datetime_max).

(** [d + delta]: [OverflowError] where the sum leaves the years 1 to
    9999. *)
Definition datetime_add (d : datetime) (delta : timedelta) : result datetime :=
  if datetime_in_range (d + delta) then Ok (d + delta)
  else Raise (OverflowError "datetime").

(** [not x] for an optional [datetime]: [None] is falsy, every
    [datetime] is truthy. *)
Definition datetime_truthy (d : option datetime) : bool :=
  match d with
  | Some _ => true
  | None => false
  end.

(** [x or default] for an optional [timedelta]: [None] and the zero
    duration are falsy. *)
Definition timedelta_or (x : option timedelta) (default : timedelta) : timedelta :=
  match x with
  | Some d => if d =? 0 then default else d
  | None => default
  end.

(** Name resolution in a function body: a name that is neither local nor
    bound at module level (nor a builtin) raises [NameError]. *)
Definition resolve (module_names : list string) (name : string) : result unit :=
  if existsb (String.eqb name) module_names then Ok tt else Raise (NameError name).

(** ** Dictionaries

    A [dict] keeps its keys in insertion order; assigning to a key that
    is present replaces the value in place. *)
Section Dict.
Context {K V : Type}.
Variable eqb : K -> K -> bool.

Definition dict : Type := list (K * V).

Fixpoint dict_get (d : dict) (k : K) : option V :=
  match d with
  | [] => None
  | (k', v) :: d' => if eqb k k' then Some v else dict_get d' k
  end.

Fixpoint dict_set (d : dict) (k : K) (v : V) : dict :=
  match d with
  | [] => [(k, v)]
  | (k', v') :: d' =>
      if eqb k k' then (k', v) :: d' else (k', v') :: dict_set d' k v
  end.

(** [dict(pairs)]. *)
Definition dict_of_pairs (pairs : list (K * V)) : dict :=
  fold_left (fun d kv => dict_set d (fst kv) (snd kv)) pairs [].

Definition dict_values (d : dict) : list V := map snd d.
End Dict.

Definition option_eqb {A : Type} (eqb : A -> A -> bool) (x y : option A) : bool :=
  match x, y with
  | Some a, Some b => eqb a b
  | None, None => true
  | _, _ => false
  end.

(** ** Numbers *)

(** A value that is an [int] on one path and a [float] on another. *)
Inductive number : Type :=
| Int (z : Z)
| Float (q : Q).

Definition number_value (n : number) : Q :=
  match n with
  | Int z => inject_Z z
  | Float q => q
  end.

(** [a > b]. *)
Definition gt (a b : number) : bool :=
  negb (Qle_bool (number_value a) (number_value b)).

(** [a / b] on two [int]s: true division, here the exact quotient; the
    code that computes on with it takes its double. *)
Definition truediv (a b : Z) : result Q :=
  if b =? 0 then Raise ZeroDivisionError else Ok (inject_Z a / inject_Z b)%Q.

(** Rounding to the nearest integer, ties to the even one. *)
Definition round_half_even (x : Q) : Z :=
  let f := Qfloor x in
  match (x - inject_Z f ?= 1 # 2)%Q with
  | Lt => f
  | Gt => f + 1
  | Eq => if Z.even f then f else f + 1
  end.

(** [round(x)]: an [int]. *)
Definition round (x : Q) : Z := round_half_even x.

(** ** Doubles *)

(** Two to the power [e], for any integer [e]. *)
Definition pow2 (e : Z) : Q :=
  match e with
  | Z0 => 1%Q
  | Zpos p => inject_Z (2 ^ Zpos p)
  | Zneg p => (1 # Pos.pow 2 p)%Q
  end.

(** The exponent of the leading bit of a positive rational: the largest
    [k] with [pow2 k <= x]. *)
Definition ilog2 (x : Q) : Z :=
  let k := Z.log2 (Qnum x) - Z.log2 (Zpos (Qden x)) in
  if Qle_bool (pow2 k) x then k else k - 1.

(** The double nearest to a positive rational, ties to the even
    significand: 53 significant bits, and steps of [2^-1074] below the
    normal range.  (Magnitudes of [2^1024] and more, where a double
    overflows, do not occur in the embedded code.) *)
Definition binary64_pos (x : Q) : Q :=
  let e := Z.max (ilog2 x - 52) (-1074) in
  (inject_Z (round_half_even (x / pow2 e)) * pow2 e)%Q.

(** The double nearest to a rational. *)
Definition binary64 (x : Q) : Q :=
  match Qnum x with
  | Z0 => 0%Q
  | Zpos _ => binary64_pos x
  | Zneg _ => (- binary64_pos (- x))%Q
  end.

(** [x * y] on two [float]s. *)
Definition fmul (x y : Q) : Q := binary64 (x * y).

(** [round(x, ndigits)] on a [float]: the double nearest to the decimal
    of [ndigits] places that is nearest to [x], ties to the even
    digit. *)
Definition round_ndigits (x : Q) (ndigits : nat) : Q :=
  let scale := Pos.pow 10 (Pos.of_nat ndigits) in
  match ndigits with
  | O => binary64 (inject_Z (round_half_even x))
  | S _ => binary64 (round_half_even (x * inject_Z (Zpos scale)) # scale)
  end.

(** [max(xs, key=key)]: the first element whose key is largest;
    [ValueError] on an empty sequence. *)
Definition max_by {A : Type} (key : A -> Z) (xs : list A) : result A :=
  match xs with
  | [] => Raise (ValueError "max")
  | x :: xs' =>
      Ok (fold_left (fun best y => if key best <? key y then y else best) xs' x)
  end.

(** [any(p(v) for v in vs)]. *)
Definition any {A : Type} (p : A -> bool) (vs : list A) : bool := existsb p vs.

End Py.

Import Py.

Declare Scope py_scope.
Notation "x <- r ;; k" := (Py.bind r (fun x => k))
  (at level 61, r at next level, right associativity) : py_scope.
Open Scope py_scope.

(* ================================================================== *)
(** * Rows and request bodies ([models.py], [schemas.py]) *)

Module User.
Record t : Type := mk {
  id : Z;
  username : option string;
  hashed_password : option string
}.
End User.

Module Employee.
Record t : Type := mk {
  id : Z;
  name : option string;
  registration_date : option datetime;
  is_archived : option bool
}.
End Employee.

Module Trucker.
Record t : Type := mk {
  id : Z;
  name : option string;
  company_name : option string;
  province_of_issue : option string;
  is_archived : option bool
}.
End Trucker.

Module Document.
Record t : Type := mk {
  id : Z;
  title : option string;
  verified : option bool;
  verification_date : option datetime;
  verified_by : option string
}.
End Document.

Module DocumentUpdate.
Record t : Type := mk {
  verified : bool;
  verified_by : option string
}.
End DocumentUpdate.

(** The contents of the four tables. *)
Record Database : Type := mkDatabase {
  users : list User.t;
  employees : list Employee.t;
  truckers : list Trucker.t;
  documents : list Document.t
}.

(** [column == True] and [column == False] in a filter: a NULL matches
    neither. *)
Definition is_true (b : option bool) : bool :=
  match b with Some true => true | _ => false end.

Definition is_false (b : option bool) : bool :=
  match b with Some false => true | _ => false end.

(** [query.count()]. *)
Definition count {A : Type} (rows : list A) : Z := Z.of_nat (List.length rows).

(* ================================================================== *)
(** * [routes/documents.py] *)

Module Documents.

(** The names bound at module level: the imports of the file, [router]
    and the two functions.  (The annotations of the handler's signature
    are not evaluated by a call; the embedding is of its body.) *)
Definition module_names : list string :=
  ["APIRouter"; "Depends"; "HTTPException"; "SessionLocal"; "Document";
   "DocumentUpdate"; "router"; "get_db"; "update_document"].

(** The scan behind [db.query(Document).get(doc_id)]: the row with that
    primary key. *)
Fixpoint query_get (rows : list Document.t) (doc_id : Z) : option Document.t :=
  match rows with
  | [] => None
  | d :: rows' => if Document.id d =? doc_id then Some d else query_get rows' doc_id
  end.

(** The integers that SQLite stores: 64 bits, signed. *)
Definition sqlite_integer (z : Z) : bool := (- 2 ^ 63 <=? z) && (z <? 2 ^ 63).

(** [db.query(Document).get(doc_id)] on line 17.  A primary key is a
    stored integer, so an id outside the 64 bits is the key of no row;
    the driver refuses to bind it and raises [OverflowError]. *)
Definition get (rows : list Document.t) (doc_id : Z) : result (option Document.t) :=
  match query_get rows doc_id with
  | Some doc => Ok (Some doc)
  | None => if sqlite_integer doc_id then Ok None else Raise (OverflowError "sqlite3")
  end.

(** [db.commit()] with one modified row: the row is written back under
    its primary key. *)
Fixpoint flush (rows : list Document.t) (doc : Document.t) : list Document.t :=
  match rows with
  | [] => []
  | d :: rows' =>
      if Document.id d =? Document.id doc then doc :: rows' else d :: flush rows' doc
  end.

Definition commit (db : Database) (doc : Document.t) : Database :=
  mkDatabase (users db) (employees db) (truckers db) (flush (documents db) doc).

Definition set_verified (doc : Document.t) (v : bool) : Document.t :=
  Document.mk (Document.id doc) (Document.title doc) (Some v)
    (Document.verification_date doc) (Document.verified_by doc).

Definition set_verification (doc : Document.t) (date : option datetime)
    (by_ : option string) : Document.t :=
  Document.mk (Document.id doc) (Document.title doc) (Document.verified doc) date by_.

(** Lines 21 to 27 of [update_document]: the assignments to the loaded
    row, in a module whose global names are [names]. *)
Definition assign_fields (names : list string) (utcnow : datetime)
    (data : DocumentUpdate.t) (doc : Document.t) : result Document.t :=
  let doc := set_verified doc (DocumentUpdate.verified data) in
  if DocumentUpdate.verified data
     && negb (datetime_truthy (Document.verification_date doc))
  then
    _ <- resolve names "datetime" ;;
    Ok (set_verification doc (Some utcnow) (DocumentUpdate.verified_by data))
  else if negb (DocumentUpdate.verified data) then
    Ok (set_verification doc None None)
  else
    Ok doc.

(** The handler of [PUT /documents/{doc_id}] run against [db] at clock
    reading [utcnow].  An exception leaves the handler before
    [db.commit()], and [get_db] closes the session: the tables are as
    before the request. *)
Definition update_document_in (names : list string) (utcnow : datetime)
    (doc_id : Z) (data : DocumentUpdate.t) (db : Database)
    : result unit * Database :=
  match get (documents db) doc_id with
  | Raise e => (Raise e, db)
  | Ok None => (Raise (HTTPException 404 (Some "Document not found")), db)
  | Ok (Some doc) =>
      match assign_fields names utcnow data doc with
      | Raise e => (Raise e, db)
      | Ok doc' => (Ok tt, commit db doc')
      end
  end.

Definition update_document := update_document_in module_names.

End Documents.

(* ================================================================== *)
(** * [routes/auth.py] *)

Module Auth.

Definition SECRET_KEY : string := "your-secret-key-here".
Definition ALGORITHM : string := "HS256".
Definition ACCESS_TOKEN_EXPIRE_MINUTES : Z := 30.

(** The values stored in the claims of a token. *)
Inductive value : Type :=
| VNone
| VStr (s : string)
| VDatetime (d : datetime).

Definition claims : Type := @dict string value.

(** [jwt.encode(claims, key, algorithm=...)], kept symbolic: the signed
    token is the triple that was handed to the signing primitive. *)
Record jwt : Type := jwt_encode {
  jwt_claims : claims;
  jwt_key : string;
  jwt_algorithm : string
}.

(** The response body of the login endpoint. *)
Record Token : Type := mkToken {
  access_token : jwt;
  token_type : string
}.

(** The fields of [OAuth2PasswordRequestForm] that [login] reads. *)
Record OAuth2PasswordRequestForm : Type := mkForm {
  form_username : string;
  form_password : string
}.

Definition str_or_none (s : option string) : value :=
  match s with
  | Some s => VStr s
  | None => VNone
  end.

Section Handlers.
(** [pwd_context.verify], the password hashing primitive: it answers
    whether the password matches the stored hash, or raises (as passlib
    does on a stored string that it cannot identify as a hash). *)
Variable pwd_verify : string -> option string -> result bool.

Definition verify_password (plain_password : string)
    (hashed_password : option string) : result bool :=
  pwd_verify plain_password hashed_password.

(** [db.query(User).filter(User.username == username).first()]. *)
Definition get_user (db : Database) (username : string) : option User.t :=
  find (fun u => option_eqb String.eqb (User.username u) (Some username))
       (users db).

(** [None] stands for the [False] that the source returns. *)
Definition authenticate_user (db : Database) (username password : string)
    : result (option User.t) :=
  match get_user db username with
  | None => Ok None
  | Some user =>
      verified <- verify_password password (User.hashed_password user) ;;
      if negb verified then Ok None else Ok (Some user)
  end.

Definition create_access_token (utcnow : datetime) (data : claims)
    (expires_delta : option timedelta) : result jwt :=
  let to_encode := data in
  expire <- datetime_add utcnow
              (timedelta_or expires_delta (timedelta_minutes 15)) ;;
  let to_encode := dict_set String.eqb to_encode "exp" (VDatetime expire) in
  Ok (jwt_encode to_encode SECRET_KEY ALGORITHM).

(** The handler of [POST /auth/token] at clock reading [utcnow]. *)
Definition login (utcnow : datetime) (db : Database)
    (form_data : OAuth2PasswordRequestForm) : result Token :=
  user <- authenticate_user db (form_username form_data) (form_password form_data) ;;
  match user with
  | None => Raise (HTTPException 401 None)
  | Some user =>
      access_token <-
        create_access_token utcnow
          [("sub", str_or_none (User.username user))] None ;;
      Ok (mkToken access_token "bearer")
  end.
End Handlers.

(** The expiry claim of a token. *)
Definition expiry (tok : jwt) : option value :=
  dict_get String.eqb (jwt_claims tok) "exp".

End Auth.

(* ================================================================== *)
(** * The query and regression primitives used by [crud.py] *)

Module Sql.

(** The proleptic Gregorian date (year, month, day) of a day number
    counted from 1970-01-01. *)
Definition civil_from_days (z : Z) : Z * Z * Z :=
  let z := z + 719468 in
  let era := z / 146097 in
  let doe := z - era * 146097 in
  let yoe := (doe - doe / 1460 + doe / 36524 - doe / 146096) / 365 in
  let doy := doe - (365 * yoe + yoe / 4 - yoe / 100) in
  let mp := (5 * doy + 2) / 153 in
  let d := doy - (153 * mp + 2) / 5 + 1 in
  let m := if mp <? 10 then mp + 3 else mp - 9 in
  let y := yoe + era * 400 in
  (if m <=? 2 then y + 1 else y, m, d).

Definition digit (n : Z) : string :=
  String (ascii_of_nat (48 + Z.to_nat (n mod 10))) EmptyString.

(** [strftime('%Y-%m', d)] on a stored timestamp; NULL on NULL.  SQLite
    rounds the time of day to the millisecond before it checks that the
    date lies in its range, which ends with the year 9999: a timestamp
    of the last half millisecond of that year is refused, and the result
    is NULL.  (A number that is no [datetime] of the years 1 to 9999 is
    no value of the column; it is given NULL as well.) *)
Definition strftime_Ym (d : option datetime) : option string :=
  match d with
  | None => None
  | Some us =>
      if datetime_in_range us && (us <=? datetime_max - 500) then
        let '(y, m, _) := civil_from_days (us / 86400000000) in
        Some (digit (y / 1000) ++ digit (y / 100) ++ digit (y / 10) ++ digit y
              ++ "-" ++ digit (m / 10) ++ digit m)
      else None
  end.

(** [coalesce(x, default)]. *)
Definition coalesce (x : option string) (default : string) : string :=
  match x with
  | Some s => s
  | None => default
  end.

(** [query(key, count(id)).group_by(key).all()]: one row per distinct
    key with the number of rows that carry it.  SQL leaves the order of
    the groups open; here a group appears where its key is first met in
    the scan. *)
Section GroupBy.
Context {A K : Type}.
Variable eqb : K -> K -> bool.
Variable key : A -> K.

Fixpoint bump (groups : list (K * Z)) (k : K) : list (K * Z) :=
  match groups with
  | [] => [(k, 1)]
  | (k', n) :: groups' =>
      if eqb k k' then (k', n + 1) :: groups' else (k', n) :: bump groups' k
  end.

Definition group_count (rows : list A) : list (K * Z) :=
  fold_left (fun groups r => bump groups (key r)) rows [].
End GroupBy.

End Sql.

Module LinearRegression.

(** A fitted model over one feature. *)
Record t : Type := mk {
  coef_ : Q;
  intercept_ : Q
}.

Definition Qsum (xs : list Q) : Q := fold_right Qplus 0%Q xs.

Definition mean (xs : list Q) : Q := (Qsum xs / inject_Z (count xs))%Q.

(** [LinearRegression().fit(X, y)] for a design matrix of one column
    [X]: ordinary least squares with an intercept.  An empty sample is
    refused with [ValueError]; where the centred column is all zero the
    least-squares solution of minimum norm has coefficient 0. *)
Definition fit (X y : list Q) : result t :=
  match X with
  | [] => Raise (ValueError "LinearRegression.fit")
  | _ :: _ =>
      if negb (Nat.eqb (List.length X) (List.length y))
      then Raise (ValueError "LinearRegression.fit")
      else
        let xm := mean X in
        let ym := mean y in
        let sxx := Qsum (map (fun x => (x - xm) * (x - xm))%Q X) in
        let sxy := Qsum (map (fun xy => (fst xy - xm) * (snd xy - ym))%Q (combine X y)) in
        let coef := if Qeq_bool sxx 0 then 0%Q else (sxy / sxx)%Q in
        Ok (mk coef (ym - coef * xm)%Q)
  end.

(** [model.predict(X)]. *)
Definition predict (model : t) (X : list Q) : list Q :=
  map (fun x => (intercept_ model + coef_ model * x)%Q) X.

End LinearRegression.

(* ================================================================== *)
(** * [crud.py] *)

Module Crud.
Import Sql.

Definition month_key : Type := option string.
Definition month_eqb : month_key -> month_key -> bool := option_eqb String.eqb.

Record EmployeeGrowth : Type := mkEmployeeGrowth {
  monthly_registrations : @dict month_key Z;
  average_growth : number;
  projection : Z
}.

Record TruckerDistribution : Type := mkTruckerDistribution {
  by_province : @dict (option string) Z;
  by_company : @dict string Z;
  percentages : @dict string Q;
  most_common : string;
  trend : string
}.

Record BusinessImpact : Type := mkBusinessImpact {
  employee_churn_rate : number;
  trucker_churn_rate : number;
  document_compliance_rate : number
}.

Record ComplianceData : Type := mkComplianceData {
  total_employees : Z;
  active_employees : Z;
  total_truckers : Z;
  active_truckers : Z;
  total_documents : Z;
  verified_documents : Z;
  unverified_documents : Z
}.

(** [range(n)]. *)
Definition range (n : nat) : list Z := map Z.of_nat (seq 0 n).

Definition Zsum (xs : list Z) : Z := fold_right Z.add 0 xs.

(** ** Employee growth *)

(** The grouped query of lines 9 to 12; [r.month] and [r.count] on line 14
    read the two labelled columns of a result row. *)
Definition monthly_rows (db : Database) : list (month_key * Z) :=
  group_count month_eqb (fun e => strftime_Ym (Employee.registration_date e))
    (filter (fun e => is_false (Employee.is_archived e)) (employees db)).

Definition get_employee_growth (db : Database) : result EmployeeGrowth :=
  let results := monthly_rows db in
  let monthly := dict_of_pairs month_eqb results in
  avg_growth <-
    match monthly with
    | [] => Ok (Int 0)
    | _ :: _ =>
        q <- truediv (Zsum (dict_values monthly)) (count monthly) ;;
        Ok (Float q)
    end ;;
  let X := map inject_Z (range (List.length monthly)) in
  let y := map inject_Z (dict_values monthly) in
  model <- LinearRegression.fit X y ;;
  let next_month := LinearRegression.predict model [inject_Z (count monthly)] in
  match next_month with
  | [] => Raise (IndexError "next_month")
  | p :: _ => Ok (mkEmployeeGrowth monthly avg_growth (round p))
  end.

(** ** Trucker distribution *)

Definition province_rows (db : Database) : list (option string * Z) :=
  group_count (option_eqb String.eqb) Trucker.province_of_issue (truckers db).

Definition company_rows (db : Database) : list (string * Z) :=
  group_count String.eqb
    (fun t => coalesce (Trucker.company_name t) "Independent") (truckers db).

(** [round((part / total) * 100, 2)], the expression of lines 38, 59,
    63 and 67, operation by operation: the quotient as a double, its
    product with 100 as a double, and that rounded to two places. *)
Definition percentage (part total : Z) : result Q :=
  q <- truediv part total ;;
  Ok (round_ndigits (fmul (binary64 q) 100) 2).

(** The comprehension of line 38, one bucket after the other. *)
Fixpoint percentages_of (total : Z) (rows : list (string * Z))
    (acc : @dict string Q) : result (@dict string Q) :=
  match rows with
  | [] => Ok acc
  | (k, v) :: rows' =>
      p <- percentage v total ;;
      percentages_of total rows' (dict_set String.eqb acc k p)
  end.

(** Lines 41 to 45. *)
Definition classify_trend (percentages : @dict string Q) : string :=
  let independent :=
    match dict_get String.eqb percentages "Independent" with
    | Some v => Float v
    | None => Int 0
    end in
  if gt independent (Int 40) then "Increasing independence"
  else if any (fun v => gt (Float v) (Int 60)) (dict_values percentages)
  then "Company dominance"
  else "Balanced".

Definition get_trucker_distribution (db : Database) : result TruckerDistribution :=
  let by_province := province_rows db in
  let by_company := company_rows db in
  let total := count (truckers db) in
  percentages <- percentages_of total by_company [] ;;
  best <- max_by snd by_company ;;
  let most_common := fst best in
  let trend := classify_trend percentages in
  Ok (mkTruckerDistribution
        (dict_of_pairs (option_eqb String.eqb) by_province)
        (dict_of_pairs String.eqb by_company)
        percentages most_common trend).

(** ** Business impact *)

(** [round((part / total) * 100, 2) if total else 0]. *)
Definition rate (part total : Z) : result number :=
  if negb (total =? 0) then
    p <- percentage part total ;;
    Ok (Float p)
  else Ok (Int 0).

Definition get_business_impact (db : Database) : result BusinessImpact :=
  let total_employees := count (employees db) in
  let archived_employees :=
    count (filter (fun e => is_true (Employee.is_archived e)) (employees db)) in
  employee_churn_rate <- rate archived_employees total_employees ;;
  let total_truckers := count (truckers db) in
  let archived_truckers :=
    count (filter (fun t => is_true (Trucker.is_archived t)) (truckers db)) in
  trucker_churn_rate <- rate archived_truckers total_truckers ;;
  let total_docs := count (documents db) in
  let verified_docs :=
    count (filter (fun d => is_true (Document.verified d)) (documents db)) in
  compliance_rate <- rate verified_docs total_docs ;;
  Ok (mkBusinessImpact employee_churn_rate trucker_churn_rate compliance_rate).

(** ** Compliance data *)

Definition get_compliance_data (db : Database) : ComplianceData :=
  let total_employees := count (employees db) in
  let active_employees :=
    count (filter (fun e => is_false (Employee.is_archived e)) (employees db)) in
  let total_truckers := count (truckers db) in
  let active_truckers :=
    count (filter (fun t => is_false (Trucker.is_archived t)) (truckers db)) in
  let total_docs := count (documents db) in
  let verified_docs :=
    count (filter (fun d => is_true (Document.verified d)) (documents db)) in
  let unverified := total_docs - verified_docs in
  mkComplianceData total_employees active_employees total_truckers
    active_truckers total_docs verified_docs unverified.

End Crud.

(* ================================================================== *)
(** * The properties that the specification words *)

Module Spec.

(** A nullable field is set when it holds a value. *)
Definition is_set {A : Type} (x : option A) : Prop := x <> None.

(** Section 3 of the specification, on documents: the verification date
    and the verifier are set if and only if the document is verified. *)
Definition verification_invariant (doc : Document.t) : Prop :=
  (is_set (Document.verification_date doc) /\ is_set (Document.verified_by doc))
  <-> Document.verified doc = Some true.

(** Section 4.1: [round(100 * part / total, 2)], of the hundredfold
    quotient itself. *)
Definition percentage_spec (part total : Z) : Q :=
  round_ndigits (100 * inject_Z part / inject_Z total)%Q 2.

(** Section 4.1, business impact: that percentage, and 0 if the total
    is 0. *)
Definition rate_spec (part total : Z) : number :=
  if total =? 0 then Int 0 else Float (percentage_spec part total).

(** The same two in the arithmetic of the code: the quotient as a
    double, its product with 100 as a double, and that rounded to two
    places. *)
Definition percentage_binary64 (part total : Z) : Q :=
  round_ndigits (fmul (binary64 (inject_Z part / inject_Z total)) 100) 2.

Definition rate_binary64 (part total : Z) : number :=
  if total =? 0 then Int 0 else Float (percentage_binary64 part total).

(** The rows counted by the rates. *)
Definition archived_employees (db : Database) : list Employee.t :=
  filter (fun e => is_true (Employee.is_archived e)) (employees db).

Definition archived_truckers (db : Database) : list Trucker.t :=
  filter (fun t => is_true (Trucker.is_archived t)) (truckers db).

Definition verified_documents (db : Database) : list Document.t :=
  filter (fun d => is_true (Document.verified d)) (documents db).

(** The employees that the growth query groups, and the month of each. *)
Definition active_employees (db : Database) : list Employee.t :=
  filter (fun e => is_false (Employee.is_archived e)) (employees db).

Definition registration_month (e : Employee.t) : option string :=
  Sql.strftime_Ym (Employee.registration_date e).


End Spec.

(** A small population, for the runs at the end of the file. *)
Definition sample : Database :=
  mkDatabase
    [User.mk 1 (Some "carol") (Some "s3cret")]
    [Employee.mk 1 (Some "Ann") (Some 0) (Some false);
     Employee.mk 2 (Some "Bo") (Some 1) (Some false);
     Employee.mk 3 (Some "Cy") (Some (40 * 86400000000)) (Some false);
     Employee.mk 4 (Some "Di") (Some (40 * 86400000000)) (Some true)]
    [Trucker.mk 1 (Some "Dee") None (Some "ON") (Some false);
     Trucker.mk 2 (Some "Eli") (Some "Acme") (Some "ON") (Some true);
     Trucker.mk 3 (Some "Fay") None (Some "QC") (Some false)]
    [Document.mk 1 (Some "licence") (Some true) (Some 100) (Some "alice");
     Document.mk 2 (Some "permit") (Some false) None None].

(* ================================================================== *)
(** * Facts about the Python primitives *)

Module PyFacts.

Lemma round_half_even_compat (x y : Q) :
  (x == y)%Q -> round_half_even x = round_half_even y.
Proof.
  intros Hxy. unfold round_half_even.
  assert (Hf : Qfloor x = Qfloor y) by (rewrite Hxy; reflexivity).
  rewrite Hf.
  assert (Hc : (x - inject_Z (Qfloor y) ?= 1 # 2)%Q
               = (y - inject_Z (Qfloor y) ?= 1 # 2)%Q)
    by (rewrite Hxy; reflexivity).
  rewrite Hc. reflexivity.
Qed.

Lemma round_half_even_inject_Z (z : Z) : round_half_even (inject_Z z) = z.
Proof.
  unfold round_half_even. rewrite Qfloor_Z.
  assert (Hc : (inject_Z z - inject_Z z ?= 1 # 2)%Q = Lt).
  { rewrite <- Qlt_alt. setoid_replace (inject_Z z - inject_Z z)%Q with 0%Q by ring.
    reflexivity. }
  rewrite Hc. reflexivity.
Qed.

Lemma round_ndigits_compat (x y : Q) (n : nat) :
  (x == y)%Q -> round_ndigits x n = round_ndigits y n.
Proof.
  intros Hxy. unfold round_ndigits. destruct n as [|n].
  - rewrite (round_half_even_compat x y Hxy). reflexivity.
  - do 2 f_equal. apply round_half_even_compat. rewrite Hxy. reflexivity.
Qed.

Lemma truediv_nonzero (a b : Z) :
  b <> 0 -> truediv a b = Ok (inject_Z a / inject_Z b)%Q.
Proof.
  intros Hb. unfold truediv. destruct (Z.eqb_spec b 0); [contradiction|reflexivity].
Qed.

Lemma option_eqb_eq (x y : option string) :
  option_eqb String.eqb x y = true <-> x = y.
Proof.
  destruct x as [a|], y as [b|]; simpl; try (split; congruence).
  rewrite String.eqb_eq. split; congruence.
Qed.

Lemma count_nil_iff {A : Type} (rows : list A) : count rows = 0 <-> rows = [].
Proof.
  unfold count. destruct rows; simpl; split; intros H; try reflexivity; discriminate.
Qed.

End PyFacts.

(* ================================================================== *)
(** * [update_document]: the verification metadata of a document *)

Module DocumentsFacts.
Import Documents.

Lemma query_get_id (rows : list Document.t) (i : Z) (d : Document.t) :
  query_get rows i = Some d -> Document.id d = i.
Proof.
  induction rows as [|r rows IH]; simpl; [discriminate|].
  destruct (Z.eqb_spec (Document.id r) i) as [E|E]; [|exact IH].
  intros [= <-]. exact E.
Qed.

(** A row written back is the row read back. *)
Lemma query_get_flush (rows : list Document.t) (i : Z) (d d' : Document.t) :
  query_get rows i = Some d -> Document.id d' = i ->
  query_get (flush rows d') i = Some d'.
Proof.
  intros Hget Hid. subst i.
  induction rows as [|r rows IH]; simpl in *; [discriminate|].
  destruct (Z.eqb_spec (Document.id r) (Document.id d')) as [E|E].
  - simpl. rewrite Z.eqb_refl. reflexivity.
  - simpl. destruct (Z.eqb_spec (Document.id r) (Document.id d')); [contradiction|].
    apply IH. exact Hget.
Qed.

(** The rows under other keys are left alone. *)
Lemma query_get_flush_other (rows : list Document.t) (i : Z) (d' : Document.t) :
  Document.id d' <> i -> query_get (flush rows d') i = query_get rows i.
Proof.
  intros Hid. induction rows as [|r rows IH]; simpl; [reflexivity|].
  destruct (Z.eqb_spec (Document.id r) (Document.id d')) as [E|E]; simpl.
  - destruct (Z.eqb_spec (Document.id d') i); [contradiction|].
    destruct (Z.eqb_spec (Document.id r) i); [congruence|reflexivity].
  - rewrite IH. reflexivity.
Qed.

Lemma assign_fields_id names utcnow data doc doc' :
  assign_fields names utcnow data doc = Ok doc' ->
  Document.id doc' = Document.id doc.
Proof.
  unfold assign_fields. simpl.
  destruct (DocumentUpdate.verified data), (Document.verification_date doc); simpl;
    try (intros [= <-]; reflexivity).
  destruct (resolve names "datetime"); simpl; [|discriminate].
  intros [= <-]. reflexivity.
Qed.

(** What a request that succeeded did: it found a row, assigned its
    fields and wrote it back. *)
Lemma update_document_in_ok names utcnow doc_id data db db' :
  update_document_in names utcnow doc_id data db = (Ok tt, db') ->
  exists doc doc',
    query_get (documents db) doc_id = Some doc
    /\ assign_fields names utcnow data doc = Ok doc'
    /\ db' = commit db doc'
    /\ query_get (documents db') doc_id = Some doc'.
Proof.
  unfold update_document_in, get.
  destruct (query_get (documents db) doc_id) as [doc|] eqn:Hget;
    [|destruct (sqlite_integer doc_id); discriminate].
  destruct (assign_fields names utcnow data doc) as [doc'|e] eqn:Hassign; [|discriminate].
  intros [= <-]. exists doc, doc'. repeat split; try assumption.
  simpl. apply (query_get_flush _ _ doc); [exact Hget|].
  rewrite (assign_fields_id _ _ _ _ _ Hassign). apply (query_get_id _ _ _ Hget).
Qed.

(** In a module that binds [datetime], a first verification stamps the
    document with the clock reading and the given verifier. *)
Lemma update_document_in_first_verification names utcnow doc_id by_ db doc :
  existsb (String.eqb "datetime") names = true ->
  query_get (documents db) doc_id = Some doc ->
  Document.verification_date doc = None ->
  exists db',
    update_document_in names utcnow doc_id (DocumentUpdate.mk true by_) db = (Ok tt, db')
    /\ query_get (documents db') doc_id
       = Some (Document.mk (Document.id doc) (Document.title doc)
                 (Some true) (Some utcnow) by_).
Proof.
  intros Hname Hget Hdate. unfold update_document_in, get. rewrite Hget.
  unfold assign_fields, resolve. rewrite Hname. simpl. rewrite Hdate. simpl.
  eexists. split; [reflexivity|].
  apply (query_get_flush _ _ doc); [exact Hget|].
  simpl. apply (query_get_id _ _ _ Hget).
Qed.

(** A verification of a document that already carries a date keeps the
    date and the verifier, whatever verifier the request names. *)
Lemma update_document_in_reverification names utcnow doc_id by_ db doc date :
  query_get (documents db) doc_id = Some doc ->
  Document.verification_date doc = Some date ->
  exists db',
    update_document_in names utcnow doc_id (DocumentUpdate.mk true by_) db = (Ok tt, db')
    /\ query_get (documents db') doc_id
       = Some (Document.mk (Document.id doc) (Document.title doc)
                 (Some true) (Some date) (Document.verified_by doc)).
Proof.
  intros Hget Hdate. unfold update_document_in, get. rewrite Hget.
  unfold assign_fields. simpl. rewrite Hdate. simpl.
  eexists. split; [reflexivity|].
  rewrite <- Hdate. apply (query_get_flush _ _ doc); [exact Hget|].
  apply (query_get_id _ _ _ Hget).
Qed.

(** The state of the verification metadata after a request that
    succeeded, in any module namespace. *)
Lemma update_document_in_metadata names utcnow doc_id data db db' :
  update_document_in names utcnow doc_id data db = (Ok tt, db') ->
  exists doc',
    query_get (documents db') doc_id = Some doc'
    /\ Document.verified doc' = Some (DocumentUpdate.verified data)
    /\ (Document.verification_date doc' <> None
        <-> DocumentUpdate.verified data = true)
    /\ (DocumentUpdate.verified data = false ->
        Document.verification_date doc' = None
        /\ Document.verified_by doc' = None).
Proof.
  intros Hrun.
  destruct (update_document_in_ok _ _ _ _ _ _ Hrun)
    as (doc & doc' & _ & Hassign & _ & Hget').
  exists doc'. split; [exact Hget'|].
  revert Hassign. unfold assign_fields. simpl.
  destruct (DocumentUpdate.verified data) eqn:Hv,
           (Document.verification_date doc) eqn:Hd; simpl.
  - intros [= <-]. simpl. rewrite Hd. repeat split; congruence.
  - destruct (resolve names "datetime"); simpl; [|discriminate].
    intros [= <-]. simpl. repeat split; congruence.
  - intros [= <-]. simpl. repeat split; congruence.
  - intros [= <-]. simpl. repeat split; congruence.
Qed.

End DocumentsFacts.

(** ** The claims on [update_document] *)

Module DocumentsClaims.
Import Documents DocumentsFacts Spec.

(** C1. A first verification ([verified=true] on an existing document
    whose [verification_date] is unset) does not complete: line 23 reads
    the name [datetime], which [routes/documents.py] never binds, so the
    request raises [NameError] and nothing is committed. *)
Theorem update_document_first_verification_raises
    (utcnow : datetime) (doc_id : Z) (by_ : option string)
    (db : Database) (doc : Document.t) :
  query_get (documents db) doc_id = Some doc ->
  Document.verification_date doc = None ->
  update_document utcnow doc_id (DocumentUpdate.mk true by_) db
  = (Raise (NameError "datetime"), db).
Proof.
  intros Hget Hdate. unfold update_document, update_document_in, get.
  rewrite Hget. unfold assign_fields. simpl. rewrite Hdate. reflexivity.
Qed.

Lemma update_document_first_verification_raises_witness :
  let doc := Document.mk 1 (Some "licence") (Some false) None None in
  let db := mkDatabase [] [] [] [doc] in
  update_document 1000 1 (DocumentUpdate.mk true (Some "alice")) db
  = (Raise (NameError "datetime"), db).
Proof.
  intros doc db.
  apply (update_document_first_verification_raises 1000 1 (Some "alice") db doc);
    reflexivity.
Defined.

(** C2, as stated, fails: re-verifying a document that carries a date but
    no verifier succeeds and leaves it verified, dated and without a
    verifier. *)
Lemma verification_invariant_counterexample :
  let doc := Document.mk 7 (Some "permit") (Some true) (Some 100) None in
  let db := mkDatabase [] [] [] [doc] in
  exists db' doc',
    update_document 200 7 (DocumentUpdate.mk true (Some "bob")) db = (Ok tt, db')
    /\ query_get (documents db') 7 = Some doc'
    /\ ~ verification_invariant doc'.
Proof.
  intros doc db. exists db, doc. repeat split.
  unfold verification_invariant, is_set. simpl. intros [_ H].
  destruct (H eq_refl) as [_ Hby]. apply Hby. reflexivity.
Qed.

(** C2, amended. After every request that succeeded the document carries
    the requested flag, its [verification_date] is set if and only if the
    flag is true, and a false flag leaves both [verification_date] and
    [verified_by] NULL, whatever they were before. *)
Theorem update_document_metadata
    (utcnow : datetime) (doc_id : Z) (data : DocumentUpdate.t)
    (db db' : Database) :
  update_document utcnow doc_id data db = (Ok tt, db') ->
  exists doc',
    query_get (documents db') doc_id = Some doc'
    /\ Document.verified doc' = Some (DocumentUpdate.verified data)
    /\ (is_set (Document.verification_date doc')
        <-> DocumentUpdate.verified data = true)
    /\ (DocumentUpdate.verified data = false ->
        Document.verification_date doc' = None
        /\ Document.verified_by doc' = None).
Proof.
  intros Hrun.
  exact (update_document_in_metadata module_names utcnow doc_id data db db' Hrun).
Qed.

Lemma update_document_metadata_witness :
  let doc := Document.mk 7 (Some "permit") (Some true) (Some 100) (Some "alice") in
  let db := mkDatabase [] [] [] [doc] in
  let db' := mkDatabase [] [] [] [Document.mk 7 (Some "permit") (Some false) None None] in
  exists doc',
    query_get (documents db') 7 = Some doc'
    /\ Document.verified doc' = Some false
    /\ (is_set (Document.verification_date doc') <-> false = true)
    /\ (false = false ->
        Document.verification_date doc' = None /\ Document.verified_by doc' = None).
Proof.
  intros doc db db'.
  apply (update_document_metadata 200 7 (DocumentUpdate.mk false None) db db').
  reflexivity.
Defined.

(** C9, the scenario of the claim on the code: on a document that was
    never verified, the request naming "alice" and then the request naming
    "bob" both raise [NameError], and [verified_by] is still NULL. *)
Theorem update_document_alice_then_bob :
  let doc := Document.mk 1 (Some "licence") (Some false) None None in
  let db := mkDatabase [] [] [] [doc] in
  forall t1 t2 : datetime,
    update_document t1 1 (DocumentUpdate.mk true (Some "alice")) db
    = (Raise (NameError "datetime"), db)
    /\ update_document t2 1 (DocumentUpdate.mk true (Some "bob")) db
       = (Raise (NameError "datetime"), db)
    /\ option_map Document.verified_by (query_get (documents db) 1) = Some None.
Proof.
  intros doc db t1 t2. repeat split.
Qed.

(** C10, as stated, fails: the id 2^63 is the id of no document, and
    the request for it raises [OverflowError], not the 404. *)
Lemma update_document_unknown_id_counterexample :
  let db := mkDatabase [] [] [] [Document.mk 1 (Some "licence") (Some false) None None] in
  query_get (documents db) (2 ^ 63) = None
  /\ update_document 1000 (2 ^ 63) (DocumentUpdate.mk true None) db
     = (Raise (OverflowError "sqlite3"), db)
  /\ update_document 1000 (2 ^ 63) (DocumentUpdate.mk true None) db
     <> (Raise (HTTPException 404 (Some "Document not found")), db).
Proof.
  intros db. split; [reflexivity|]. split; [reflexivity|]. discriminate.
Qed.

(** C10, amended. A request for an id that no document carries raises
    the 404 [HTTPException] if the id is a signed 64-bit integer and
    [OverflowError] if it is not; either way every table is left as it
    was. *)
Theorem update_document_unknown_id
    (utcnow : datetime) (doc_id : Z) (data : DocumentUpdate.t) (db : Database) :
  query_get (documents db) doc_id = None ->
  update_document utcnow doc_id data db
  = (Raise (if sqlite_integer doc_id
            then HTTPException 404 (Some "Document not found")
            else OverflowError "sqlite3"),
     db).
Proof.
  intros Hget. unfold update_document, update_document_in, get. rewrite Hget.
  destruct (sqlite_integer doc_id); reflexivity.
Qed.

Lemma update_document_unknown_id_witness :
  let db := mkDatabase [] [] [] [Document.mk 1 (Some "licence") (Some false) None None] in
  update_document 1000 999999 (DocumentUpdate.mk true None) db
  = (Raise (HTTPException 404 (Some "Document not found")), db).
Proof.
  intros db.
  apply (update_document_unknown_id 1000 999999 (DocumentUpdate.mk true None) db).
  reflexivity.
Defined.

End DocumentsClaims.

(* ================================================================== *)
(** * [login]: the lifetime of an issued token *)

Module AuthFacts.
Import Auth.

(** A token that was created: the sum of the clock reading and the
    lifetime in force is a [datetime], and is the expiry claim written
    into the claims. *)
Lemma create_access_token_ok (utcnow : datetime) (data : claims)
    (expires_delta : option timedelta) (tok : jwt) :
  create_access_token utcnow data expires_delta = Ok tok ->
  datetime_in_range (utcnow + timedelta_or expires_delta (timedelta_minutes 15)) = true
  /\ tok = jwt_encode
             (dict_set String.eqb data "exp"
                (VDatetime (utcnow + timedelta_or expires_delta (timedelta_minutes 15))))
             SECRET_KEY ALGORITHM.
Proof.
  unfold create_access_token, datetime_add.
  destruct (datetime_in_range (utcnow + timedelta_or expires_delta (timedelta_minutes 15)));
    cbn [Py.bind]; [|discriminate].
  intros [= <-]. split; reflexivity.
Qed.

(** The expiry claim is the clock reading plus the lifetime in force. *)
Lemma create_access_token_expiry (utcnow : datetime) (sub : value)
    (expires_delta : option timedelta) (tok : jwt) :
  create_access_token utcnow [("sub", sub)] expires_delta = Ok tok ->
  expiry tok
  = Some (VDatetime (utcnow + timedelta_or expires_delta (timedelta_minutes 15))).
Proof.
  intros Hrun. destruct (create_access_token_ok _ _ _ _ Hrun) as [_ ->]. reflexivity.
Qed.

(** A login that succeeded authenticated a user and answered with a token
    created without a lifetime argument. *)
Lemma login_ok pwd_verify utcnow db form_data tok :
  login pwd_verify utcnow db form_data = Ok tok ->
  exists user access_token,
    authenticate_user pwd_verify db (form_username form_data) (form_password form_data)
    = Ok (Some user)
    /\ create_access_token utcnow [("sub", str_or_none (User.username user))] None
       = Ok access_token
    /\ tok = mkToken access_token "bearer".
Proof.
  unfold login.
  destruct (authenticate_user pwd_verify db (form_username form_data)
              (form_password form_data)) as [[user|]|e]; cbn [Py.bind]; try discriminate.
  destruct (create_access_token utcnow [("sub", str_or_none (User.username user))] None)
    as [access_token|e] eqn:Hcreate; cbn [Py.bind]; [|discriminate].
  intros [= <-]. exists user, access_token.
  split; [reflexivity|]. split; [exact Hcreate|reflexivity].
Qed.

End AuthFacts.

Module AuthClaims.
Import Auth AuthFacts.

(** C3, on the code. Every token that [login] issues expires 15 minutes
    after issuance, not 30: [login] calls [create_access_token] without a
    lifetime, and [ACCESS_TOKEN_EXPIRE_MINUTES] is never read. *)
Theorem login_token_expiry
    (pwd_verify : string -> option string -> result bool) (utcnow : datetime)
    (db : Database) (form_data : OAuth2PasswordRequestForm) (tok : Token) :
  login pwd_verify utcnow db form_data = Ok tok ->
  expiry (access_token tok) = Some (VDatetime (utcnow + timedelta_minutes 15))
  /\ expiry (access_token tok)
     <> Some (VDatetime (utcnow + timedelta_minutes ACCESS_TOKEN_EXPIRE_MINUTES)).
Proof.
  intros Hlogin.
  destruct (login_ok _ _ _ _ _ Hlogin) as (user & signed & _ & Hcreate & ->).
  simpl access_token. rewrite (create_access_token_expiry _ _ _ _ Hcreate).
  simpl timedelta_or. split; [reflexivity|].
  intros [= H]. unfold timedelta_minutes, ACCESS_TOKEN_EXPIRE_MINUTES in H. lia.
Qed.

Lemma login_token_expiry_witness :
  let pwd_verify :=
    fun plain hashed => Ok (option_eqb String.eqb hashed (Some plain)) in
  let db := mkDatabase [User.mk 1 (Some "carol") (Some "s3cret")] [] [] [] in
  let tok :=
    mkToken (jwt_encode [("sub", VStr "carol"); ("exp", VDatetime 900005000)]
               SECRET_KEY ALGORITHM) "bearer" in
  expiry (access_token tok) = Some (VDatetime (5000 + timedelta_minutes 15))
  /\ expiry (access_token tok)
     <> Some (VDatetime (5000 + timedelta_minutes ACCESS_TOKEN_EXPIRE_MINUTES)).
Proof.
  intros pwd_verify db tok.
  apply (login_token_expiry pwd_verify 5000 db (mkForm "carol" "s3cret") tok).
  reflexivity.
Defined.

End AuthClaims.

(* ================================================================== *)
(** * Grouped counts and dictionaries built from them *)

Module SqlFacts.
Import Sql.

Section GroupCount.
Context {A K : Type}.
Variable eqb : K -> K -> bool.
Variable key : A -> K.
Hypothesis eqb_eq : forall x y, eqb x y = true <-> x = y.

Let step := fun (groups : list (K * Z)) (r : A) => bump eqb groups (key r).

Lemma eqb_refl (k : K) : eqb k k = true.
Proof. apply eqb_eq. reflexivity. Qed.

Lemma bump_not_nil (groups : list (K * Z)) (k : K) : bump eqb groups k <> [].
Proof.
  destruct groups as [|[k' n] groups]; simpl; [discriminate|].
  destruct (eqb k k'); discriminate.
Qed.

Lemma fold_bump_not_nil (rows : list A) (groups : list (K * Z)) :
  groups <> [] -> fold_left step rows groups <> [].
Proof.
  revert groups. induction rows as [|r rows IH]; intros groups Hg; simpl; [exact Hg|].
  apply IH. apply bump_not_nil.
Qed.

(** A table with a row has a group. *)
Lemma group_count_not_nil (rows : list A) :
  rows <> [] -> group_count eqb key rows <> [].
Proof.
  destruct rows as [|r rows]; [congruence|]. intros _.
  unfold group_count. simpl. apply fold_bump_not_nil. discriminate.
Qed.



Lemma bump_keys (groups : list (K * Z)) (k : K) :
  map fst (bump eqb groups k)
  = if existsb (eqb k) (map fst groups) then map fst groups else (map fst groups ++ [k])%list.
Proof.
  induction groups as [|[k' n] groups IH]; simpl; [reflexivity|].
  destruct (eqb k k'); simpl; [reflexivity|].
  rewrite IH. destruct (existsb (eqb k) (map fst groups)); reflexivity.
Qed.

Lemma bump_keys_NoDup (groups : list (K * Z)) (k : K) :
  NoDup (map fst groups) -> NoDup (map fst (bump eqb groups k)).
Proof.
  intros Hnd. rewrite bump_keys.
  destruct (existsb (eqb k) (map fst groups)) eqn:E; [exact Hnd|].
  apply NoDup_app; [exact Hnd| repeat constructor; intros [] |].
  intros x Hx [->|[]].
  assert (existsb (eqb x) (map fst groups) = true); [|congruence].
  apply existsb_exists. exists x. split; [exact Hx|apply eqb_refl].
Qed.

(** No two groups carry the same key. *)
Lemma group_count_keys_NoDup (rows : list A) :
  NoDup (map fst (group_count eqb key rows)).
Proof.
  unfold group_count.
  assert (H : forall groups, NoDup (map fst groups) ->
                             NoDup (map fst (fold_left step rows groups))).
  { induction rows as [|r rows IH]; intros groups Hnd; simpl; [exact Hnd|].
    apply IH. apply bump_keys_NoDup. exact Hnd. }
  apply H. constructor.
Qed.

End GroupCount.

End SqlFacts.

(* ================================================================== *)
(** * The analytics of [crud.py] *)

Module CrudFacts.
Import Sql LinearRegression Crud Spec PyFacts SqlFacts.

(** ** Percentages *)

Lemma percentage_nonzero (part total : Z) :
  total <> 0 -> percentage part total = Ok (percentage_binary64 part total).
Proof.
  intros Htotal. unfold percentage. rewrite (truediv_nonzero part total Htotal).
  reflexivity.
Qed.

Lemma dict_set_fresh {V : Type} (d : @dict string V) (k : string) (v : V) :
  ~ In k (map fst d) -> dict_set String.eqb d k v = (d ++ [(k, v)])%list.
Proof.
  induction d as [|[k' v'] d IH]; simpl; intros Hk; [reflexivity|].
  destruct (String.eqb_spec k k') as [E|E].
  - exfalso. apply Hk. left. symmetry. exact E.
  - rewrite IH; [reflexivity|]. intros Hin. apply Hk. right. exact Hin.
Qed.

(** With a non-zero total, the comprehension yields one percentage per
    bucket, in the order of the buckets. *)
Lemma percentages_of_spec (total : Z) (rows : list (string * Z)) (acc : @dict string Q) :
  total <> 0 ->
  NoDup (map fst acc ++ map fst rows) ->
  percentages_of total rows acc
  = Ok (acc ++ map (fun kv => (fst kv, percentage_binary64 (snd kv) total)) rows)%list.
Proof.
  intros Htotal. revert acc.
  induction rows as [|[k v] rows IH]; intros acc Hnd; cbn [percentages_of map].
  - rewrite app_nil_r. reflexivity.
  - rewrite (percentage_nonzero v total Htotal). cbn [Py.bind fst snd].
    assert (Hk : ~ In k (map fst acc)).
    { simpl in Hnd. apply NoDup_remove_2 in Hnd. intros Hin. apply Hnd.
      apply in_or_app. left. exact Hin. }
    rewrite (dict_set_fresh acc k _ Hk).
    rewrite IH.
    + rewrite <- app_assoc. reflexivity.
    + rewrite map_app, <- app_assoc. exact Hnd.
Qed.


Lemma company_rows_keys_NoDup (db : Database) : NoDup (map fst (company_rows db)).
Proof. apply group_count_keys_NoDup. exact String.eqb_eq. Qed.

Lemma company_rows_not_nil (db : Database) :
  truckers db <> [] -> company_rows db <> [].
Proof. apply group_count_not_nil. Qed.

Lemma max_by_not_nil {A : Type} (key : A -> Z) (xs : list A) :
  xs <> [] -> exists best, max_by key xs = Ok best.
Proof.
  destruct xs as [|x xs]; [congruence|]. intros _. eexists. reflexivity.
Qed.

(** The outcome of the operation on a table with at least one trucker. *)
Lemma get_trucker_distribution_not_nil (db : Database) :
  truckers db <> [] ->
  exists best,
    max_by snd (company_rows db) = Ok best
    /\ get_trucker_distribution db
       = let pct := map (fun kv => (fst kv, percentage_binary64 (snd kv) (count (truckers db))))
                        (company_rows db) in
         Ok (mkTruckerDistribution
               (dict_of_pairs (option_eqb String.eqb) (province_rows db))
               (dict_of_pairs String.eqb (company_rows db))
               pct (fst best) (classify_trend pct)).
Proof.
  intros Hne.
  destruct (max_by_not_nil snd (company_rows db) (company_rows_not_nil db Hne))
    as [best Hbest].
  exists best. split; [exact Hbest|].
  unfold get_trucker_distribution.
  rewrite percentages_of_spec.
  - simpl. rewrite Hbest. reflexivity.
  - intros H. apply count_nil_iff in H. contradiction.
  - simpl. apply company_rows_keys_NoDup.
Qed.


(** ** The trend label *)





(** ** Rates *)

(** The guarded expression of lines 59, 63 and 67 never raises: it is
    the rate in the arithmetic of the code, and 0 on a zero total. *)
Lemma rate_correct (part total : Z) : rate part total = Ok (rate_binary64 part total).
Proof.
  unfold rate, rate_binary64. destruct (Z.eqb_spec total 0) as [E|E]; cbn [negb]; [reflexivity|].
  rewrite (percentage_nonzero part total E). reflexivity.
Qed.

(** ** The regression on a single month *)


(** ** Employee growth *)

(** No month: the regression is handed an empty sample and refuses it. *)
Lemma get_employee_growth_no_month (db : Database) :
  monthly_rows db = [] ->
  get_employee_growth db = Raise (ValueError "LinearRegression.fit").
Proof.
  intros Hrows. unfold get_employee_growth. rewrite Hrows. reflexivity.
Qed.


End CrudFacts.

(** ** The claims on the analytics *)

Module CrudClaims.
Import Sql Crud Spec PyFacts SqlFacts CrudFacts.





(** C6. With no trucker the operation fails: [max] is handed the empty
    list of company buckets and raises [ValueError]. *)
Theorem get_trucker_distribution_without_truckers (db : Database) :
  truckers db = [] ->
  get_trucker_distribution db = Raise (ValueError "max").
Proof.
  intros Hnone. unfold get_trucker_distribution, company_rows.
  rewrite Hnone. reflexivity.
Qed.

Lemma get_trucker_distribution_without_truckers_witness :
  let db := mkDatabase [] [Employee.mk 1 (Some "Ann") (Some 0) (Some false)] [] [] in
  get_trucker_distribution db = Raise (ValueError "max").
Proof.
  intros db. apply (get_trucker_distribution_without_truckers db). reflexivity.
Defined.



(** C8, as stated, fails: with 23 of 160 employees archived the code
    computes (23/160)*100 in doubles, a little under 14.375, and returns
    14.37, where round(100 * 23 / 160, 2) is 14.38. *)
Lemma get_business_impact_rates_counterexample :
  let archived := Employee.mk 1 (Some "Ann") (Some 0) (Some true) in
  let active := Employee.mk 2 (Some "Bo") (Some 0) (Some false) in
  let db := mkDatabase [] (repeat archived 23 ++ repeat active 137)%list [] [] in
  exists r,
    get_business_impact db = Ok r
    /\ employee_churn_rate r = Float (binary64 (1437 # 100))
    /\ rate_spec (count (archived_employees db)) (count (employees db))
       = Float (binary64 (1438 # 100))
    /\ employee_churn_rate r
       <> rate_spec (count (archived_employees db)) (count (employees db)).
Proof.
  intros archived active db. eexists. split; [vm_compute; reflexivity|].
  split; [vm_compute; reflexivity|]. split; [vm_compute; reflexivity|].
  vm_compute. discriminate.
Qed.

(** C8, amended. The business-impact operation always returns; each
    rate is round((part / total) * 100, 2) in the arithmetic of doubles,
    the quotient first and then its product with 100, and 0 where the
    total is 0. *)
Theorem get_business_impact_rates (db : Database) :
  exists r,
    get_business_impact db = Ok r
    /\ employee_churn_rate r
       = rate_binary64 (count (archived_employees db)) (count (employees db))
    /\ trucker_churn_rate r
       = rate_binary64 (count (archived_truckers db)) (count (truckers db))
    /\ document_compliance_rate r
       = rate_binary64 (count (verified_documents db)) (count (documents db))
    /\ (count (employees db) = 0 -> employee_churn_rate r = Int 0)
    /\ (count (truckers db) = 0 -> trucker_churn_rate r = Int 0)
    /\ (count (documents db) = 0 -> document_compliance_rate r = Int 0).
Proof.
  unfold get_business_impact. rewrite !rate_correct. cbn [Py.bind].
  eexists. split; [reflexivity|]. cbn [employee_churn_rate trucker_churn_rate
                                       document_compliance_rate].
  repeat split; intros ->; reflexivity.
Qed.

End CrudClaims.

(* ================================================================== *)
(** * The embedding on concrete inputs *)

Module Examples.
Import Sql Crud Documents Auth.

Example strftime_epoch : strftime_Ym (Some 0) = Some "1970-01".
Proof. reflexivity. Qed.

Example strftime_leap_day :
  strftime_Ym (Some (951782400 * 1000000)) = Some "2000-02".
Proof. reflexivity. Qed.

Example strftime_before_epoch : strftime_Ym (Some (-1)) = Some "1969-12".
Proof. reflexivity. Qed.

Example round_ties_to_even : round (5 # 2) = 2 /\ round (7 # 2) = 4 /\ round (-5 # 2) = -2.
Proof. repeat split. Qed.

Example round_two_places : round_ndigits (1 # 8) 2 = binary64 (12 # 100).
Proof. vm_compute. reflexivity. Qed.

(** The double nearest to 1/3: 6004799503160661 / 2^54. *)
Example binary64_third :
  Qeq_bool (binary64 (1 # 3)) (6004799503160661 # 18014398509481984) = true.
Proof. vm_compute. reflexivity. Qed.

(** In doubles (23/160)*100 falls short of 14.375 and (8001/20000)*100
    exceeds 40.005. *)
Example percentage_23_of_160 : percentage 23 160 = Ok (binary64 (1437 # 100)).
Proof. vm_compute. reflexivity. Qed.

Example percentage_8001_of_20000 :
  percentage 8001 20000 = Ok (binary64 (4001 # 100)).
Proof. vm_compute. reflexivity. Qed.

(** The priority of the independence rule, on percentages that no
    population produces. *)
Example classify_trend_priority :
  classify_trend [("Independent", 45 # 1); ("X", 70 # 1)]%Q = "Increasing independence".
Proof. reflexivity. Qed.

Example classify_trend_dominance :
  classify_trend [("Independent", 40 # 1); ("X", 6001 # 100)]%Q = "Company dominance".
Proof. reflexivity. Qed.

Example classify_trend_balanced :
  classify_trend [("Independent", 40 # 1); ("X", 60 # 1)]%Q = "Balanced".
Proof. reflexivity. Qed.

Example growth_on_sample :
  get_employee_growth sample
  = Ok (mkEmployeeGrowth [(Some "1970-01", 2); (Some "1970-02", 1)]
          (Float (3 # 2)) 0).
Proof. vm_compute. reflexivity. Qed.

Example distribution_on_sample :
  get_trucker_distribution sample
  = Ok (mkTruckerDistribution
          [(Some "ON", 2); (Some "QC", 1)]
          [("Independent", 2); ("Acme", 1)]
          [("Independent", binary64 (6667 # 100)); ("Acme", binary64 (3333 # 100))]
          "Independent" "Increasing independence").
Proof. vm_compute. reflexivity. Qed.

Example impact_on_sample :
  get_business_impact sample
  = Ok (mkBusinessImpact (Float (binary64 (2500 # 100)))
          (Float (binary64 (3333 # 100))) (Float (binary64 (5000 # 100)))).
Proof. vm_compute. reflexivity. Qed.

Example impact_on_empty_tables :
  get_business_impact (mkDatabase [] [] [] [])
  = Ok (mkBusinessImpact (Int 0) (Int 0) (Int 0)).
Proof. reflexivity. Qed.

Example compliance_on_sample :
  get_compliance_data sample = mkComplianceData 4 3 3 2 2 1 1.
Proof. reflexivity. Qed.

Example unverify_clears :
  update_document 500 1 (DocumentUpdate.mk false (Some "bob")) sample
  = (Ok tt,
     mkDatabase (users sample) (employees sample) (truckers sample)
       [Document.mk 1 (Some "licence") (Some false) None None;
        Document.mk 2 (Some "permit") (Some false) None None]).
Proof. reflexivity. Qed.

Example reverify_keeps_alice :
  update_document 500 1 (DocumentUpdate.mk true (Some "bob")) sample = (Ok tt, sample).
Proof. reflexivity. Qed.

Example login_wrong_password :
  login (fun plain hashed => Ok (option_eqb String.eqb hashed (Some plain)))
        5000 sample (mkForm "carol" "guess")
  = Raise (HTTPException 401 None).
Proof. reflexivity. Qed.

End Examples.

(* ================================================================== *)
(** * Further facts: dictionaries, grouped counts, rounding *)

Module DictFacts.

Section Keys.
Context {K V : Type}.
Variable eqb : K -> K -> bool.
Hypothesis eqb_eq : forall x y, eqb x y = true <-> x = y.

Lemma eqb_neq (x y : K) : eqb x y = false <-> x <> y.
Proof.
  rewrite <- not_true_iff_false, eqb_eq. reflexivity.
Qed.

(** Reading back the key just written. *)
Lemma dict_get_set_same (d : @dict K V) (k : K) (v : V) :
  dict_get eqb (dict_set eqb d k v) k = Some v.
Proof.
  induction d as [|[k' v'] d IH]; simpl.
  - rewrite (proj2 (eqb_eq k k) eq_refl). reflexivity.
  - destruct (eqb k k') eqn:E; simpl; rewrite E; [reflexivity|exact IH].
Qed.

(** The other keys keep their values. *)
Lemma dict_get_set_other (d : @dict K V) (k k0 : K) (v : V) :
  k0 <> k -> dict_get eqb (dict_set eqb d k v) k0 = dict_get eqb d k0.
Proof.
  intros Hne. induction d as [|[k' v'] d IH]; simpl.
  - rewrite (proj2 (eqb_neq k0 k) Hne). reflexivity.
  - destruct (eqb k k') eqn:E; simpl.
    + apply eqb_eq in E. subst k'. rewrite (proj2 (eqb_neq k0 k) Hne). reflexivity.
    + rewrite IH. reflexivity.
Qed.

Lemma dict_set_new (d : @dict K V) (k : K) (v : V) :
  ~ In k (map fst d) -> dict_set eqb d k v = (d ++ [(k, v)])%list.
Proof.
  induction d as [|[k' v'] d IH]; simpl; intros Hk; [reflexivity|].
  destruct (eqb k k') eqn:E.
  - apply eqb_eq in E. exfalso. apply Hk. left. symmetry. exact E.
  - rewrite IH; [reflexivity|]. intros Hin. apply Hk. right. exact Hin.
Qed.

(** [dict(pairs)] of pairs with distinct keys is the list of the pairs. *)
Lemma dict_of_pairs_NoDup (pairs : list (K * V)) :
  NoDup (map fst pairs) -> dict_of_pairs eqb pairs = pairs.
Proof.
  unfold dict_of_pairs.
  assert (H : forall acc, NoDup (map fst acc ++ map fst pairs) ->
            fold_left (fun d kv => dict_set eqb d (fst kv) (snd kv)) pairs acc
            = (acc ++ pairs)%list).
  { induction pairs as [|[k v] pairs IH]; intros acc Hnd; simpl.
    - rewrite app_nil_r. reflexivity.
    - rewrite dict_set_new.
      + rewrite IH; [rewrite <- app_assoc; reflexivity|].
        rewrite map_app, <- app_assoc. exact Hnd.
      + simpl in Hnd. apply NoDup_remove_2 in Hnd. intros Hin. apply Hnd.
        apply in_or_app. left. exact Hin. }
  intros Hnd. apply (H []). exact Hnd.
Qed.

(** Among distinct keys, an entry is what a lookup finds. *)
Lemma dict_get_In (d : @dict K V) (k : K) (v : V) :
  NoDup (map fst d) -> In (k, v) d -> dict_get eqb d k = Some v.
Proof.
  induction d as [|[k' v'] d IH]; simpl; intros Hnd Hin; [contradiction|].
  inversion Hnd as [|? ? Hnotin Hnd']; subst.
  destruct Hin as [[= -> ->]|Hin].
  - rewrite (proj2 (eqb_eq k k) eq_refl). reflexivity.
  - destruct (eqb k k') eqn:E; [|apply IH; assumption].
    apply eqb_eq in E. subst k'. exfalso. apply Hnotin.
    apply in_map_iff. exists (k, v). split; [reflexivity|exact Hin].
Qed.

Lemma dict_get_Some_In (d : @dict K V) (k : K) (v : V) :
  dict_get eqb d k = Some v -> In (k, v) d.
Proof.
  induction d as [|[k' v'] d IH]; simpl; [discriminate|].
  destruct (eqb k k') eqn:E.
  - apply eqb_eq in E. subst k'. intros [= ->]. left. reflexivity.
  - intros H. right. apply IH. exact H.
Qed.

End Keys.

End DictFacts.

Module GroupFacts.
Import Sql DictFacts.

Section Counting.
Context {A K : Type}.
Variable eqb : K -> K -> bool.
Variable key : A -> K.
Hypothesis eqb_eq : forall x y, eqb x y = true <-> x = y.

(** The rows that carry the key [k]. *)
Let carrying (k : K) (rows : list A) : list A :=
  filter (fun r => eqb k (key r)) rows.

Lemma count_cons {B : Type} (x : B) (xs : list B) : count (x :: xs) = 1 + count xs.
Proof. unfold count. simpl List.length. lia. Qed.

Lemma count_nonneg {B : Type} (xs : list B) : 0 <= count xs.
Proof. unfold count. lia. Qed.

Lemma count_filter_le {B : Type} (p : B -> bool) (xs : list B) :
  count (filter p xs) <= count xs.
Proof.
  induction xs as [|x xs IH]; simpl; [lia|].
  destruct (p x); rewrite ?count_cons; lia.
Qed.

Lemma bump_get (groups : list (K * Z)) (k' k : K) :
  dict_get eqb (bump eqb groups k') k
  = if eqb k k'
    then Some (match dict_get eqb groups k' with Some n => n + 1 | None => 1 end)
    else dict_get eqb groups k.
Proof.
  induction groups as [|[k0 n] groups IH]; simpl; [reflexivity|].
  destruct (eqb k' k0) eqn:E0; simpl.
  - apply eqb_eq in E0. subst k0. destruct (eqb k k'); reflexivity.
  - rewrite IH. destruct (eqb k k') eqn:E1, (eqb k k0) eqn:E2; try reflexivity.
    apply eqb_eq in E1, E2. subst. apply (eqb_neq eqb eqb_eq) in E0. congruence.
Qed.

Lemma fold_bump_get (rows : list A) (groups : list (K * Z)) (k : K) :
  dict_get eqb (fold_left (fun g r => bump eqb g (key r)) rows groups) k
  = match dict_get eqb groups k with
    | Some n => Some (n + count (carrying k rows))
    | None => if count (carrying k rows) =? 0 then None
              else Some (count (carrying k rows))
    end.
Proof.
  revert groups. induction rows as [|r rows IH]; intros groups; simpl.
  - destruct (dict_get eqb groups k); [f_equal; unfold count; simpl; lia|reflexivity].
  - rewrite IH, bump_get. unfold carrying. simpl.
    destruct (eqb k (key r)) eqn:E.
    + apply eqb_eq in E. subst k. rewrite count_cons.
      pose proof (count_nonneg (filter (fun r0 => eqb (key r) (key r0)) rows)) as Hge.
      destruct (dict_get eqb groups (key r)) as [n|].
      * f_equal. lia.
      * destruct (Z.eqb_spec (1 + count (filter (fun r0 => eqb (key r) (key r0)) rows)) 0);
          [lia|reflexivity].
    + reflexivity.
Qed.

(** The group of a key counts the rows that carry it; a key that no row
    carries has no group. *)
Lemma group_count_get (rows : list A) (k : K) :
  dict_get eqb (group_count eqb key rows) k
  = if count (carrying k rows) =? 0 then None else Some (count (carrying k rows)).
Proof. unfold group_count. rewrite fold_bump_get. reflexivity. Qed.

Lemma bump_sum (groups : list (K * Z)) (k : K) :
  Crud.Zsum (map snd (bump eqb groups k)) = Crud.Zsum (map snd groups) + 1.
Proof.
  induction groups as [|[k' n] groups IH]; simpl; [reflexivity|].
  destruct (eqb k k'); simpl; [lia|rewrite IH; lia].
Qed.

(** The counts of the groups add up to the number of rows. *)
Lemma group_count_sum (rows : list A) :
  Crud.Zsum (map snd (group_count eqb key rows)) = count rows.
Proof.
  unfold group_count.
  assert (H : forall groups,
            Crud.Zsum (map snd (fold_left (fun g r => bump eqb g (key r)) rows groups))
            = Crud.Zsum (map snd groups) + count rows).
  { induction rows as [|r rows IH]; intros groups; simpl.
    - unfold count. simpl. lia.
    - rewrite IH, bump_sum, count_cons. lia. }
  rewrite H. reflexivity.
Qed.

(** Every group counts at least one row and at most all of them. *)
Lemma group_count_bounds (rows : list A) (k : K) (n : Z) :
  In (k, n) (group_count eqb key rows) -> 1 <= n <= count rows.
Proof.
  intros Hin.
  apply (dict_get_In eqb eqb_eq) in Hin;
    [|apply (SqlFacts.group_count_keys_NoDup eqb key eqb_eq)].
  rewrite group_count_get in Hin.
  pose proof (count_nonneg (carrying k rows)) as Hge.
  pose proof (count_filter_le (fun r => eqb k (key r)) rows) as Hle.
  fold (carrying k rows) in Hle.
  destruct (Z.eqb_spec (count (carrying k rows)) 0); [discriminate|].
  injection Hin as <-. lia.
Qed.

End Counting.

End GroupFacts.

Module RoundFacts.
Import PyFacts Spec.

(** Rounding stays between the integers that bound its argument. *)
Lemma round_half_even_bounds (x : Q) (a b : Z) :
  (inject_Z a <= x)%Q -> (x <= inject_Z b)%Q ->
  a <= round_half_even x <= b.
Proof.
  intros Ha Hb.
  assert (Hfa : a <= Qfloor x) by (rewrite <- (Qfloor_Z a); apply Qfloor_resp_le; exact Ha).
  assert (Hfb : Qfloor x <= b) by (rewrite <- (Qfloor_Z b); apply Qfloor_resp_le; exact Hb).
  assert (Hup : (inject_Z (Qfloor x) < x)%Q -> Qfloor x + 1 <= b).
  { intros Hlt. assert (Hfb' : (inject_Z (Qfloor x) < inject_Z b)%Q)
      by (eapply Qlt_le_trans; [exact Hlt|exact Hb]).
    rewrite <- Zlt_Qlt in Hfb'. lia. }
  unfold round_half_even.
  destruct (x - inject_Z (Qfloor x) ?= 1 # 2)%Q eqn:Hc.
  - assert (Hlt : (inject_Z (Qfloor x) < x)%Q).
    { apply Qeq_alt in Hc. apply Qlt_minus_iff. rewrite Hc. reflexivity. }
    destruct (Z.even (Qfloor x)); [lia|]. specialize (Hup Hlt). lia.
  - lia.
  - assert (Hlt : (inject_Z (Qfloor x) < x)%Q).
    { apply Qgt_alt in Hc. apply Qlt_minus_iff.
      eapply Qlt_trans; [|exact Hc]. reflexivity. }
    specialize (Hup Hlt). lia.
Qed.

(** The leading bit of a positive rational below 2^53 has an exponent of
    at most 52. *)
Lemma ilog2_upper (x : Q) (c : Z) :
  (0 < x)%Q -> (x <= inject_Z c)%Q -> c < 2 ^ 53 -> ilog2 x <= 52.
Proof.
  intros Hpos Hle Hc. destruct x as [n d]. unfold ilog2. cbn [Qnum Qden].
  assert (Hn : 0 < n) by (unfold Qlt in Hpos; simpl in Hpos; lia).
  assert (Hnc : n <= c * Z.pos d) by (unfold Qle in Hle; simpl in Hle; lia).
  assert (Hc0 : 0 < c) by nia.
  assert (Hk : Z.log2 n - Z.log2 (Z.pos d) <= 53).
  { pose proof (Z.log2_le_mono n (c * Z.pos d) Hnc) as H1.
    pose proof (Z.log2_mul_above c (Z.pos d)) as H2.
    assert (H3 : Z.log2 c < 53) by (apply Z.log2_lt_pow2; lia).
    lia. }
  destruct (Qle_bool (pow2 (Z.log2 n - Z.log2 (Z.pos d))) (n # d)) eqn:Htest; [|lia].
  destruct (Z.eq_dec (Z.log2 n - Z.log2 (Z.pos d)) 53) as [E|E]; [|lia].
  exfalso. rewrite E in Htest. apply Qle_bool_iff in Htest.
  assert (Hcontra : (pow2 53 <= inject_Z c)%Q) by (eapply Qle_trans; eassumption).
  unfold pow2 in Hcontra. rewrite <- Zle_Qle in Hcontra. lia.
Qed.

Lemma scaled_round_bounds (x : Q) (N c : Z) :
  0 < N -> (0 <= x)%Q -> (x <= inject_Z c)%Q ->
  0 <= round_half_even (x * inject_Z N) <= c * N.
Proof.
  intros HN H0 Hle.
  assert (HNq : (0 <= inject_Z N)%Q)
    by (change 0%Q with (inject_Z 0); rewrite <- Zle_Qle; lia).
  apply round_half_even_bounds.
  - apply Qmult_le_0_compat; assumption.
  - rewrite inject_Z_mult. apply Qmult_le_compat_r; assumption.
Qed.

(** Rounding to a double does not cross an integer below 2^53, nor
    zero. *)
Lemma binary64_bounds (x : Q) (c : Z) :
  (0 <= x)%Q -> (x <= inject_Z c)%Q -> c < 2 ^ 53 ->
  (0 <= binary64 x <= inject_Z c)%Q.
Proof.
  intros H0 Hle Hc.
  assert (Hc0 : (0 <= inject_Z c)%Q) by (eapply Qle_trans; eassumption).
  unfold binary64. destruct (Qnum x) as [|n|n] eqn:Hnum.
  - split; [apply Qle_refl|exact Hc0].
  - assert (Hpos : (0 < x)%Q) by (unfold Qlt; simpl; lia).
    pose proof (ilog2_upper x c Hpos Hle Hc) as Hlog.
    unfold binary64_pos.
    destruct (Z.max (ilog2 x - 52) (-1074)) as [|e|e] eqn:He; [| lia |]; cbn [pow2].
    + change (x / 1)%Q with (x * inject_Z 1)%Q.
      destruct (scaled_round_bounds x 1 c) as [Hm0 Hm1]; [lia|assumption|assumption|].
      unfold Qle. simpl. lia.
    + change (x / (1 # 2 ^ e))%Q with (x * inject_Z (Z.pos (2 ^ e)))%Q.
      destruct (scaled_round_bounds x (Z.pos (2 ^ e)) c) as [Hm0 Hm1];
        [lia|assumption|assumption|].
      unfold Qle. simpl. lia.
  - exfalso. unfold Qle in H0. simpl in H0. lia.
Qed.

(** A part of a non-empty whole has a percentage between 0 and 100, in
    the arithmetic of the code. *)
Lemma percentage_binary64_bounds (part total : Z) :
  0 <= part <= total -> 0 < total ->
  (0 <= percentage_binary64 part total <= 100)%Q.
Proof.
  intros [Hp0 Hpt] Ht. unfold percentage_binary64, fmul, round_ndigits.
  change (Pos.pow 10 (Pos.of_nat 2)) with 100%positive.
  assert (Htq : (0 < inject_Z total)%Q)
    by (change 0%Q with (inject_Z 0); rewrite <- Zlt_Qlt; exact Ht).
  assert (Hpq : (0 <= inject_Z part)%Q)
    by (change 0%Q with (inject_Z 0); rewrite <- Zle_Qle; exact Hp0).
  assert (Hq0 : (0 <= inject_Z part / inject_Z total)%Q).
  { apply Qle_shift_div_l; [exact Htq|]. rewrite Qmult_0_l. exact Hpq. }
  assert (Hq1 : (inject_Z part / inject_Z total <= inject_Z 1)%Q).
  { apply Qle_shift_div_r; [exact Htq|]. rewrite Qmult_1_l, <- Zle_Qle. exact Hpt. }
  destruct (binary64_bounds _ 1 Hq0 Hq1) as [Hf0 Hf1]; [reflexivity|].
  set (f1 := binary64 (inject_Z part / inject_Z total)) in *.
  assert (Hg0 : (0 <= f1 * 100)%Q) by (apply Qmult_le_0_compat; [exact Hf0|discriminate]).
  assert (Hg1 : (f1 * 100 <= inject_Z 100)%Q).
  { setoid_replace (inject_Z 100) with (inject_Z 1 * 100)%Q by reflexivity.
    apply Qmult_le_compat_r; [exact Hf1|discriminate]. }
  destruct (binary64_bounds _ 100 Hg0 Hg1) as [Hh0 Hh1]; [reflexivity|].
  set (f2 := binary64 (f1 * 100)) in *.
  destruct (scaled_round_bounds f2 100 100) as [Hk0 Hk1]; [lia|assumption|assumption|].
  apply binary64_bounds; [| |reflexivity]; unfold Qle; simpl; lia.
Qed.

End RoundFacts.

(* ================================================================== *)
(** * Further facts on the analytics *)

Module CrudMoreFacts.
Import Sql LinearRegression Crud Spec PyFacts SqlFacts CrudFacts DictFacts GroupFacts.

Lemma monthly_rows_keys_NoDup (db : Database) : NoDup (map fst (monthly_rows db)).
Proof. apply group_count_keys_NoDup. exact option_eqb_eq. Qed.

Lemma monthly_rows_nil_iff (db : Database) :
  monthly_rows db = [] <-> active_employees db = [].
Proof.
  split.
  - intros Hrows. destruct (active_employees db) as [|e es] eqn:Hactive; [reflexivity|].
    exfalso. revert Hrows.
    apply (group_count_not_nil month_eqb registration_month (active_employees db)).
    rewrite Hactive. discriminate.
  - intros Hactive. change (monthly_rows db)
      with (group_count month_eqb registration_month (active_employees db)).
    rewrite Hactive. reflexivity.
Qed.

Lemma range_length (n : nat) : List.length (range n) = n.
Proof. unfold range. rewrite length_map, length_seq. reflexivity. Qed.

(** With a sample of one or more points of equal number the fit returns. *)
Lemma fit_not_nil (X y : list Q) :
  X <> [] -> List.length X = List.length y -> exists model, fit X y = Ok model.
Proof.
  intros Hne Hlen. unfold fit. destruct X as [|x X]; [congruence|].
  rewrite Hlen, Nat.eqb_refl. cbn [negb]. eexists. reflexivity.
Qed.

(** The result of the growth operation where some month has a
    registration. *)
Lemma get_employee_growth_some (db : Database) :
  monthly_rows db <> [] ->
  exists p,
    get_employee_growth db
    = Ok (mkEmployeeGrowth (monthly_rows db)
            (Float (inject_Z (Zsum (map snd (monthly_rows db)))
                    / inject_Z (count (monthly_rows db))))
            p).
Proof.
  intros Hne. unfold get_employee_growth.
  rewrite (dict_of_pairs_NoDup month_eqb option_eqb_eq _ (monthly_rows_keys_NoDup db)).
  destruct (monthly_rows db) as [|kv rows] eqn:Hrows; [congruence|].
  rewrite truediv_nonzero by (rewrite count_nil_iff; discriminate).
  cbn [Py.bind]. unfold dict_values.
  destruct (fit_not_nil (map inject_Z (range (List.length (kv :: rows))))
              (map inject_Z (map snd (kv :: rows)))) as [model Hfit].
  - simpl. discriminate.
  - rewrite !length_map, range_length. reflexivity.
  - rewrite Hfit. cbn [Py.bind predict map]. eexists. reflexivity.
Qed.

(** Fitted on (0, a) and (1, b), the model predicts 2b - a at 2. *)
Lemma fit_two_samples (a b : Z) :
  exists model,
    fit [inject_Z 0; inject_Z 1] [inject_Z a; inject_Z b] = Ok model
    /\ map round (predict model [inject_Z 2]) = [2 * b - a].
Proof.
  eexists. split; [reflexivity|].
  cbn [predict map coef_ intercept_]. f_equal. unfold round.
  transitivity (round_half_even (inject_Z (2 * b - a))); [|apply round_half_even_inject_Z].
  apply round_half_even_compat.
  unfold mean, Qsum, count. cbn [fold_right List.length map combine fst snd].
  change (Qeq_bool _ 0) with false. cbv iota.
  unfold Zminus. rewrite inject_Z_plus, inject_Z_mult, inject_Z_opp.
  change (inject_Z (Z.of_nat 2)) with 2%Q. change (inject_Z 2) with 2%Q.
  change (inject_Z 1) with 1%Q. change (inject_Z 0) with 0%Q.
  field.
Qed.

Lemma max_by_fold_split {A : Type} (key : A -> Z) (xs l1 l2 : list A) (b : A) :
  (forall x, In x l1 -> key x < key b) ->
  (forall x, In x l2 -> key x <= key b) ->
  exists l1' l2',
    (l1 ++ b :: l2 ++ xs)%list
    = (l1' ++ fold_left (fun best y => if key best <? key y then y else best) xs b
           :: l2')%list
    /\ (forall x, In x l1' ->
          key x < key (fold_left (fun best y => if key best <? key y then y else best) xs b))
    /\ (forall x, In x l2' ->
          key x <= key (fold_left (fun best y => if key best <? key y then y else best) xs b)).
Proof.
  revert l1 l2 b. induction xs as [|y ys IH]; intros l1 l2 b H1 H2; simpl.
  - exists l1, l2. rewrite app_nil_r. repeat split; assumption.
  - destruct (Z.ltb_spec (key b) (key y)) as [Hlt|Hge].
    + destruct (IH (l1 ++ b :: l2)%list [] y) as (l1' & l2' & Heq & Hl1 & Hl2).
      * intros x Hx. apply in_app_or in Hx. destruct Hx as [Hx|[<-|Hx]].
        -- specialize (H1 x Hx). lia.
        -- exact Hlt.
        -- specialize (H2 x Hx). lia.
      * intros x [].
      * exists l1', l2'. split; [|split; assumption].
        rewrite <- Heq. rewrite <- app_assoc. reflexivity.
    + destruct (IH l1 (l2 ++ [y])%list b) as (l1' & l2' & Heq & Hl1 & Hl2).
      * exact H1.
      * intros x Hx. apply in_app_or in Hx. destruct Hx as [Hx|[<-|[]]].
        -- exact (H2 x Hx).
        -- exact Hge.
      * exists l1', l2'. split; [|split; assumption].
        rewrite <- Heq. rewrite <- app_assoc. reflexivity.
Qed.

(** [max] returns the first element among those of largest key. *)
Lemma max_by_first_largest {A : Type} (key : A -> Z) (xs : list A) (best : A) :
  max_by key xs = Ok best ->
  exists before after,
    xs = (before ++ best :: after)%list
    /\ (forall x, In x before -> key x < key best)
    /\ (forall x, In x after -> key x <= key best).
Proof.
  unfold max_by. destruct xs as [|x xs]; [discriminate|]. intros [= <-].
  destruct (max_by_fold_split key xs [] [] x) as (l1 & l2 & Heq & H1 & H2);
    try (intros ? []).
  exists l1, l2. split; [exact Heq|]. split; assumption.
Qed.

(** A distribution that was returned: there is a trucker, and the fields
    are the grouped rows, their percentages and the largest bucket. *)
Lemma get_trucker_distribution_ok (db : Database) (r : TruckerDistribution) :
  get_trucker_distribution db = Ok r ->
  truckers db <> []
  /\ by_province r = province_rows db
  /\ by_company r = company_rows db
  /\ percentages r
     = map (fun kv => (fst kv, percentage_binary64 (snd kv) (count (truckers db))))
           (company_rows db)
  /\ exists best, max_by snd (company_rows db) = Ok best /\ most_common r = fst best.
Proof.
  intros Hrun.
  assert (Hne : truckers db <> []).
  { intros Hnil. revert Hrun. unfold get_trucker_distribution, company_rows.
    rewrite Hnil. discriminate. }
  destruct (get_trucker_distribution_not_nil db Hne) as (best & Hbest & Hrun').
  rewrite Hrun' in Hrun. injection Hrun as <-. cbn.
  split; [exact Hne|]. split.
  - apply dict_of_pairs_NoDup; [exact option_eqb_eq|].
    apply group_count_keys_NoDup. exact option_eqb_eq.
  - split.
    + apply dict_of_pairs_NoDup; [exact String.eqb_eq|apply company_rows_keys_NoDup].
    + split; [reflexivity|]. exists best. split; [exact Hbest|reflexivity].
Qed.

End CrudMoreFacts.

(** ** Further properties of the analytics *)

Module CrudExtras.
Import Sql LinearRegression Crud Spec PyFacts SqlFacts CrudFacts.
Import DictFacts GroupFacts RoundFacts CrudMoreFacts.

(** A growth result that was returned: some month has a registration,
    and the mapping and the average are those of the grouped query. *)
Lemma get_employee_growth_ok (db : Database) (r : EmployeeGrowth) :
  get_employee_growth db = Ok r ->
  monthly_rows db <> []
  /\ monthly_registrations r = monthly_rows db
  /\ average_growth r
     = Float (inject_Z (Zsum (map snd (monthly_rows db)))
              / inject_Z (count (monthly_rows db))).
Proof.
  intros Hrun.
  assert (Hne : monthly_rows db <> []).
  { intros Hnil. rewrite (get_employee_growth_no_month db Hnil) in Hrun. discriminate. }
  destruct (get_employee_growth_some db Hne) as [p Hrun'].
  rewrite Hrun' in Hrun. injection Hrun as <-. cbn.
  split; [exact Hne|]. split; reflexivity.
Qed.

(** X1. The growth operation fails, with the [ValueError] of the fit,
    exactly when no employee is non-archived, and returns a result
    exactly when one is. *)
Theorem get_employee_growth_outcome (db : Database) :
  (active_employees db = []
   <-> get_employee_growth db = Raise (ValueError "LinearRegression.fit"))
  /\ (active_employees db <> [] <-> exists r, get_employee_growth db = Ok r).
Proof.
  split; split.
  - intros Hnil. apply get_employee_growth_no_month, monthly_rows_nil_iff. exact Hnil.
  - intros Hrun. apply monthly_rows_nil_iff.
    destruct (monthly_rows db) as [|kv rows] eqn:Hrows; [reflexivity|].
    destruct (get_employee_growth_some db) as [p Hok]; [rewrite Hrows; discriminate|].
    rewrite Hok in Hrun. discriminate.
  - intros Hne. destruct (get_employee_growth_some db) as [p Hok].
    + intros Hnil. apply Hne, monthly_rows_nil_iff. exact Hnil.
    + eexists. exact Hok.
  - intros [r Hrun] Hnil.
    destruct (get_employee_growth_ok db r Hrun) as (Hne & _).
    apply Hne, monthly_rows_nil_iff. exact Hnil.
Qed.

(** X2. In a returned growth result the entry of a month is the number
    of non-archived employees registered in that month, a month without
    one has no entry, and the entries add up to the number of
    non-archived employees. *)
Theorem monthly_registrations_counts (db : Database) (r : EmployeeGrowth) :
  get_employee_growth db = Ok r ->
  (forall k : month_key,
     dict_get month_eqb (monthly_registrations r) k
     = let n := count (filter (fun e => month_eqb k (registration_month e))
                         (active_employees db)) in
       if n =? 0 then None else Some n)
  /\ Zsum (dict_values (monthly_registrations r)) = count (active_employees db).
Proof.
  intros Hrun. destruct (get_employee_growth_ok db r Hrun) as (_ & -> & _). split.
  - intros k. apply (group_count_get month_eqb registration_month option_eqb_eq).
  - apply (group_count_sum month_eqb registration_month).
Qed.

Lemma monthly_registrations_counts_witness :
  (forall k : month_key,
     dict_get month_eqb [(Some "1970-01", 2); (Some "1970-02", 1)] k
     = let n := count (filter (fun e => month_eqb k (registration_month e))
                         (active_employees sample)) in
       if n =? 0 then None else Some n)
  /\ Zsum (dict_values [(Some "1970-01", 2); (Some "1970-02", 1)])
     = count (active_employees sample).
Proof.
  apply (monthly_registrations_counts sample
           (mkEmployeeGrowth [(Some "1970-01", 2); (Some "1970-02", 1)] (Float (3 # 2)) 0)).
  vm_compute. reflexivity.
Defined.



(** X4. Where the returned mapping has two months, counting [a] then
    [b] in its order, the projection is [2 * b - a]: the line through
    the two counts, one step further.  It is negative when [a > 2 * b]. *)
Theorem projection_two_months (db : Database) (r : EmployeeGrowth)
    (k1 k2 : month_key) (a b : Z) :
  get_employee_growth db = Ok r ->
  monthly_registrations r = [(k1, a); (k2, b)] ->
  projection r = 2 * b - a.
Proof.
  intros Hrun Hmonths.
  destruct (get_employee_growth_ok db r Hrun) as (_ & Hrows & _).
  rewrite Hmonths in Hrows. symmetry in Hrows.
  assert (Hkeys : month_eqb k2 k1 = false).
  { pose proof (monthly_rows_keys_NoDup db) as Hnd. rewrite Hrows in Hnd.
    apply not_true_iff_false. intros Heq. apply option_eqb_eq in Heq. subst k2.
    inversion Hnd as [|? ? Hnotin _]. apply Hnotin. left. reflexivity. }
  revert Hrun. unfold get_employee_growth. rewrite Hrows.
  destruct (fit_two_samples a b) as (model & Hfit & Hpredict).
  cbn [dict_of_pairs fold_left dict_set fst snd]. rewrite Hkeys.
  cbn [dict_set dict_values map List.length range seq fst snd].
  change (count [(k1, a); (k2, b)]) with 2.
  rewrite (truediv_nonzero _ 2) by discriminate. cbn [Py.bind].
  change (inject_Z (Z.of_nat 0)) with (inject_Z 0).
  change (inject_Z (Z.of_nat 1)) with (inject_Z 1).
  rewrite Hfit. cbn [Py.bind].
  cbn [predict map] in Hpredict |- *. injection Hpredict as Hround.
  rewrite Hround. intros [= <-]. reflexivity.
Qed.

Lemma projection_two_months_witness : 0 = 2 * 1 - 2.
Proof.
  apply (projection_two_months sample
           (mkEmployeeGrowth [(Some "1970-01", 2); (Some "1970-02", 1)] (Float (3 # 2)) 0)
           (Some "1970-01") (Some "1970-02") 2 1).
  - vm_compute. reflexivity.
  - reflexivity.
Defined.

(** X5. In a returned distribution the entry of a company is the
    number of truckers of that company, a trucker without company name
    counting for "Independent"; the entry of a province is the number of
    truckers of that province; a company or province without trucker has
    no entry. *)
Theorem distribution_counts (db : Database) (r : TruckerDistribution) :
  get_trucker_distribution db = Ok r ->
  (forall company : string,
     dict_get String.eqb (by_company r) company
     = let n := count (filter
                         (fun t => String.eqb company
                                     (coalesce (Trucker.company_name t) "Independent"))
                         (truckers db)) in
       if n =? 0 then None else Some n)
  /\ (forall province : option string,
        dict_get (option_eqb String.eqb) (by_province r) province
        = let n := count (filter
                            (fun t => option_eqb String.eqb province
                                        (Trucker.province_of_issue t))
                            (truckers db)) in
          if n =? 0 then None else Some n).
Proof.
  intros Hrun.
  destruct (get_trucker_distribution_ok db r Hrun) as (_ & -> & -> & _). split.
  - intros company. apply (group_count_get String.eqb _ String.eqb_eq).
  - intros province. apply (group_count_get (option_eqb String.eqb) _ option_eqb_eq).
Qed.

Lemma distribution_counts_witness :
  let r := mkTruckerDistribution
             [(Some "ON", 2); (Some "QC", 1)] [("Independent", 2); ("Acme", 1)]
             [("Independent", binary64 (6667 # 100)); ("Acme", binary64 (3333 # 100))]
             "Independent" "Increasing independence" in
  (forall company : string,
     dict_get String.eqb (by_company r) company
     = let n := count (filter
                         (fun t => String.eqb company
                                     (coalesce (Trucker.company_name t) "Independent"))
                         (truckers sample)) in
       if n =? 0 then None else Some n)
  /\ (forall province : option string,
        dict_get (option_eqb String.eqb) (by_province r) province
        = let n := count (filter
                            (fun t => option_eqb String.eqb province
                                        (Trucker.province_of_issue t))
                            (truckers sample)) in
          if n =? 0 then None else Some n).
Proof.
  intros r. apply (distribution_counts sample r). vm_compute. reflexivity.
Defined.

(** X6. In a returned distribution the company counts add up to the
    number of truckers, and so do the province counts. *)
Theorem distribution_totals (db : Database) (r : TruckerDistribution) :
  get_trucker_distribution db = Ok r ->
  Zsum (dict_values (by_company r)) = count (truckers db)
  /\ Zsum (dict_values (by_province r)) = count (truckers db).
Proof.
  intros Hrun.
  destruct (get_trucker_distribution_ok db r Hrun) as (_ & -> & -> & _). split.
  - apply (group_count_sum String.eqb).
  - apply (group_count_sum (option_eqb String.eqb)).
Qed.

Lemma distribution_totals_witness :
  Zsum (dict_values [("Independent", 2); ("Acme", 1)]) = count (truckers sample)
  /\ Zsum (dict_values [(Some "ON", 2); (Some "QC", 1)]) = count (truckers sample).
Proof.
  apply (distribution_totals sample
           (mkTruckerDistribution
              [(Some "ON", 2); (Some "QC", 1)] [("Independent", 2); ("Acme", 1)]
              [("Independent", binary64 (6667 # 100)); ("Acme", binary64 (3333 # 100))]
              "Independent" "Increasing independence")).
  vm_compute. reflexivity.
Defined.

(** X7. In a returned distribution the percentages have the companies
    of [by_company] as keys, in the same order, and every percentage is
    between 0 and 100. *)
Theorem percentages_bounds (db : Database) (r : TruckerDistribution) :
  get_trucker_distribution db = Ok r ->
  map fst (percentages r) = map fst (by_company r)
  /\ (forall company v, In (company, v) (percentages r) -> (0 <= v <= 100)%Q).
Proof.
  intros Hrun.
  destruct (get_trucker_distribution_ok db r Hrun) as (Hne & _ & -> & -> & _). split.
  - rewrite map_map. reflexivity.
  - intros company v Hin. apply in_map_iff in Hin.
    destruct Hin as ([k n] & [= <- <-] & Hin). cbn [snd].
    destruct (group_count_bounds String.eqb _ String.eqb_eq _ _ _ Hin) as [Hn1 Hn2].
    apply percentage_binary64_bounds; lia.
Qed.

Lemma percentages_bounds_witness :
  let pct := [("Independent", binary64 (6667 # 100)); ("Acme", binary64 (3333 # 100))] in
  map fst pct = map fst [("Independent", 2); ("Acme", 1)]
  /\ (forall company v, In (company, v) pct -> (0 <= v <= 100)%Q).
Proof.
  intros pct.
  apply (percentages_bounds sample
           (mkTruckerDistribution
              [(Some "ON", 2); (Some "QC", 1)] [("Independent", 2); ("Acme", 1)]
              pct "Independent" "Increasing independence")).
  vm_compute. reflexivity.
Defined.

(** X8. In a returned distribution [most_common] is a company of
    [by_company] whose count no other company exceeds, and among the
    companies of that count it is the first in the order of the
    mapping. *)
Theorem most_common_first_largest (db : Database) (r : TruckerDistribution) :
  get_trucker_distribution db = Ok r ->
  exists n before after,
    by_company r = (before ++ (most_common r, n) :: after)%list
    /\ (forall company m, In (company, m) before -> m < n)
    /\ (forall company m, In (company, m) after -> m <= n).
Proof.
  intros Hrun.
  destruct (get_trucker_distribution_ok db r Hrun)
    as (_ & _ & -> & _ & [company n] & Hbest & ->).
  destruct (max_by_first_largest snd _ _ Hbest) as (before & after & Heq & Hb & Ha).
  exists n, before, after. split; [exact Heq|]. split.
  - intros c m Hin. exact (Hb (c, m) Hin).
  - intros c m Hin. exact (Ha (c, m) Hin).
Qed.

Lemma most_common_first_largest_witness :
  let r := mkTruckerDistribution
             [(Some "ON", 2); (Some "QC", 1)] [("Independent", 2); ("Acme", 1)]
             [("Independent", binary64 (6667 # 100)); ("Acme", binary64 (3333 # 100))]
             "Independent" "Increasing independence" in
  exists n before after,
    by_company r = (before ++ (most_common r, n) :: after)%list
    /\ (forall company m, In (company, m) before -> m < n)
    /\ (forall company m, In (company, m) after -> m <= n).
Proof.
  intros r. apply (most_common_first_largest sample r). vm_compute. reflexivity.
Defined.

Lemma rate_binary64_bounds (part total : Z) :
  0 <= part <= total -> (0 <= number_value (rate_binary64 part total) <= 100)%Q.
Proof.
  intros Hpart. unfold rate_binary64. destruct (Z.eqb_spec total 0) as [E|E].
  - split; discriminate.
  - apply percentage_binary64_bounds; lia.
Qed.

(** X9. The three rates of the business-impact operation are between 0
    and 100, on every database. *)
Theorem get_business_impact_bounds (db : Database) :
  exists r,
    get_business_impact db = Ok r
    /\ (0 <= number_value (employee_churn_rate r) <= 100)%Q
    /\ (0 <= number_value (trucker_churn_rate r) <= 100)%Q
    /\ (0 <= number_value (document_compliance_rate r) <= 100)%Q.
Proof.
  unfold get_business_impact. rewrite !rate_correct. cbn [Py.bind].
  eexists. split; [reflexivity|].
  cbn [employee_churn_rate trucker_churn_rate document_compliance_rate].
  repeat split; apply rate_binary64_bounds; split;
    try apply count_nonneg; apply count_filter_le.
Qed.

(** X10. In the compliance snapshot the active employees and truckers
    are at most the totals, the verified and the unverified documents add
    up to the total, and no count is negative. *)
Theorem get_compliance_data_counts (db : Database) :
  let c := get_compliance_data db in
  0 <= Crud.active_employees c <= total_employees c
  /\ 0 <= active_truckers c <= total_truckers c
  /\ 0 <= Crud.verified_documents c <= total_documents c
  /\ 0 <= unverified_documents c <= total_documents c
  /\ Crud.verified_documents c + unverified_documents c = total_documents c.
Proof.
  unfold get_compliance_data. cbn.
  pose proof (count_filter_le (fun e => is_false (Employee.is_archived e)) (employees db)).
  pose proof (count_filter_le (fun t => is_false (Trucker.is_archived t)) (truckers db)).
  pose proof (count_filter_le (fun d => is_true (Document.verified d)) (documents db)).
  pose proof (count_nonneg (filter (fun e => is_false (Employee.is_archived e)) (employees db))).
  pose proof (count_nonneg (filter (fun t => is_false (Trucker.is_archived t)) (truckers db))).
  pose proof (count_nonneg (filter (fun d => is_true (Document.verified d)) (documents db))).
  lia.
Qed.

End CrudExtras.

(* ================================================================== *)
(** * Further properties of [update_document] *)

Module DocumentsExtras.
Import Documents DocumentsFacts Spec.

Lemma flush_ids (rows : list Document.t) (doc : Document.t) :
  map Document.id (flush rows doc) = map Document.id rows.
Proof.
  induction rows as [|r rows IH]; simpl; [reflexivity|].
  destruct (Z.eqb_spec (Document.id r) (Document.id doc)) as [E|E]; simpl.
  - rewrite E. reflexivity.
  - rewrite IH. reflexivity.
Qed.

Lemma flush_flush (rows : list Document.t) (doc : Document.t) :
  flush (flush rows doc) doc = flush rows doc.
Proof.
  induction rows as [|r rows IH]; simpl; [reflexivity|].
  destruct (Z.eqb_spec (Document.id r) (Document.id doc)) as [E|E]; simpl.
  - rewrite Z.eqb_refl. reflexivity.
  - destruct (Z.eqb_spec (Document.id r) (Document.id doc)); [contradiction|].
    rewrite IH. reflexivity.
Qed.

(** The assignments change nothing on a row that they produced. *)
Lemma assign_fields_again names t1 t2 data doc doc' :
  assign_fields names t1 data doc = Ok doc' ->
  assign_fields names t2 data doc' = Ok doc'.
Proof.
  unfold assign_fields. cbn [set_verified Document.verification_date].
  destruct (DocumentUpdate.verified data) eqn:Hv,
           (Document.verification_date doc) eqn:Hd; cbn.
  - intros [= <-]. cbn. rewrite Hd. reflexivity.
  - destruct (resolve names "datetime"); cbn; [|discriminate].
    intros [= <-]. reflexivity.
  - intros [= <-]. reflexivity.
  - intros [= <-]. reflexivity.
Qed.

(** Whether the assignments raise does not depend on the clock. *)
Lemma assign_fields_raise names t1 t2 data doc e :
  assign_fields names t1 data doc = Raise e ->
  assign_fields names t2 data doc = Raise e.
Proof.
  unfold assign_fields. cbn [set_verified Document.verification_date].
  destruct (DocumentUpdate.verified data), (Document.verification_date doc); cbn;
    try discriminate.
  destruct (resolve names "datetime"); cbn; [discriminate|]. intros H. exact H.
Qed.

Lemma update_document_in_twice names t1 t2 doc_id data db :
  update_document_in names t2 doc_id data
    (snd (update_document_in names t1 doc_id data db))
  = update_document_in names t1 doc_id data db.
Proof.
  unfold update_document_in at 2 3. unfold get.
  destruct (query_get (documents db) doc_id) as [doc|] eqn:Hget.
  - destruct (assign_fields names t1 data doc) as [doc'|e] eqn:Hassign; cbn [snd].
    + unfold update_document_in, get.
      assert (Hid : Document.id doc' = doc_id).
      { rewrite (assign_fields_id _ _ _ _ _ Hassign). apply (query_get_id _ _ _ Hget). }
      cbn [documents commit]. rewrite (query_get_flush _ _ doc doc' Hget Hid).
      rewrite (assign_fields_again _ _ _ _ _ _ Hassign).
      unfold commit. cbn [users employees truckers documents].
      rewrite flush_flush. reflexivity.
    + unfold update_document_in, get.
      rewrite Hget, (assign_fields_raise _ _ t2 _ _ _ Hassign). reflexivity.
  - destruct (sqlite_integer doc_id) eqn:Hrange; cbn [snd];
      unfold update_document_in, get; rewrite Hget, Hrange; reflexivity.
Qed.

(** X11. Whatever its outcome, a request leaves the users, employees and
    truckers as they were, keeps the documents' ids in place, and leaves
    every document other than the addressed one as it was. *)
Theorem update_document_frame
    (utcnow : datetime) (doc_id : Z) (data : DocumentUpdate.t) (db : Database) :
  let db' := snd (update_document utcnow doc_id data db) in
  users db' = users db
  /\ employees db' = employees db
  /\ truckers db' = truckers db
  /\ map Document.id (documents db') = map Document.id (documents db)
  /\ (forall other, other <> doc_id ->
        query_get (documents db') other = query_get (documents db) other).
Proof.
  unfold update_document, update_document_in, get.
  destruct (query_get (documents db) doc_id) as [doc|] eqn:Hget;
    [|destruct (sqlite_integer doc_id); cbn; repeat split; reflexivity].
  destruct (assign_fields module_names utcnow data doc) as [doc'|e] eqn:Hassign;
    [|cbn; repeat split; reflexivity].
  cbn. repeat split.
  - apply flush_ids.
  - intros other Hother. apply query_get_flush_other.
    rewrite (assign_fields_id _ _ _ _ _ Hassign), (query_get_id _ _ _ Hget).
    congruence.
Qed.

(** X12. A request repeated, at any later clock reading, has the outcome
    of the first run and leaves the tables as the first run left them. *)
Theorem update_document_idempotent
    (t1 t2 : datetime) (doc_id : Z) (data : DocumentUpdate.t) (db : Database) :
  update_document t2 doc_id data (snd (update_document t1 doc_id data db))
  = update_document t1 doc_id data db.
Proof. apply update_document_in_twice. Qed.

(** X13. On an existing document a request with [verified=false] always
    succeeds; the document then is unverified, without date and without
    verifier, whatever it carried before and whatever verifier the
    request names, and keeps its id and title. *)
Theorem update_document_unverify
    (utcnow : datetime) (doc_id : Z) (by_ : option string)
    (db : Database) (doc : Document.t) :
  query_get (documents db) doc_id = Some doc ->
  exists db',
    update_document utcnow doc_id (DocumentUpdate.mk false by_) db = (Ok tt, db')
    /\ query_get (documents db') doc_id
       = Some (Document.mk doc_id (Document.title doc) (Some false) None None).
Proof.
  intros Hget. unfold update_document, update_document_in, get. rewrite Hget.
  unfold assign_fields. cbn.
  eexists. split; [reflexivity|].
  rewrite <- (query_get_id _ _ _ Hget) at 2.
  apply (query_get_flush _ _ doc); [exact Hget|apply (query_get_id _ _ _ Hget)].
Qed.

Lemma update_document_unverify_witness :
  exists db',
    update_document 500 1 (DocumentUpdate.mk false (Some "bob")) sample = (Ok tt, db')
    /\ query_get (documents db') 1
       = Some (Document.mk 1 (Some "licence") (Some false) None None).
Proof.
  apply (update_document_unverify 500 1 (Some "bob") sample
           (Document.mk 1 (Some "licence") (Some true) (Some 100) (Some "alice"))).
  reflexivity.
Defined.

(** X14. On an existing document that carries a verification date, a
    request with [verified=true] succeeds and keeps the date and the
    verifier that the document had, whatever verifier the request names;
    the document is verified afterwards. *)
Theorem update_document_reverification
    (utcnow : datetime) (doc_id : Z) (by_ : option string)
    (db : Database) (doc : Document.t) (date : datetime) :
  query_get (documents db) doc_id = Some doc ->
  Document.verification_date doc = Some date ->
  exists db',
    update_document utcnow doc_id (DocumentUpdate.mk true by_) db = (Ok tt, db')
    /\ query_get (documents db') doc_id
       = Some (Document.mk doc_id (Document.title doc) (Some true) (Some date)
                 (Document.verified_by doc)).
Proof.
  intros Hget Hdate.
  destruct (update_document_in_reverification module_names utcnow doc_id by_ db doc date
              Hget Hdate) as (db' & Hrun & Hget').
  exists db'. split; [exact Hrun|].
  rewrite Hget', (query_get_id _ _ _ Hget). reflexivity.
Qed.

Lemma update_document_reverification_witness :
  exists db',
    update_document 500 1 (DocumentUpdate.mk true (Some "bob")) sample = (Ok tt, db')
    /\ query_get (documents db') 1
       = Some (Document.mk 1 (Some "licence") (Some true) (Some 100) (Some "alice")).
Proof.
  apply (update_document_reverification 500 1 (Some "bob") sample
           (Document.mk 1 (Some "licence") (Some true) (Some 100) (Some "alice")) 100);
    reflexivity.
Defined.

(** X15. A request succeeds exactly when the document exists and either
    the request has [verified=false] or the document already carries a
    verification date. *)
Theorem update_document_succeeds_iff
    (utcnow : datetime) (doc_id : Z) (data : DocumentUpdate.t) (db : Database) :
  fst (update_document utcnow doc_id data db) = Ok tt
  <-> exists doc,
        query_get (documents db) doc_id = Some doc
        /\ (DocumentUpdate.verified data = false
            \/ is_set (Document.verification_date doc)).
Proof.
  unfold update_document, update_document_in, get, is_set.
  destruct (query_get (documents db) doc_id) as [doc|] eqn:Hget.
  - unfold assign_fields. cbn [set_verified Document.verification_date].
    destruct (DocumentUpdate.verified data) eqn:Hv,
             (Document.verification_date doc) eqn:Hd; cbn; split;
      try reflexivity; try discriminate.
    + intros _. exists doc. split; [reflexivity|]. right. rewrite Hd. discriminate.
    + intros (d & [= <-] & [H|H]); [discriminate|]. exfalso. apply H. exact Hd.
    + intros _. exists doc. split; [reflexivity|]. left. reflexivity.
    + intros _. exists doc. split; [reflexivity|]. left. reflexivity.
  - destruct (sqlite_integer doc_id); cbn;
      (split; [discriminate|]); intros (d & H & _); discriminate.
Qed.

End DocumentsExtras.

(* ================================================================== *)
(** * Further properties of the auth handlers *)

Module AuthExtras.
Import Auth AuthFacts DictFacts.

Lemma get_user_some (db : Database) (username : string) (user : User.t) :
  get_user db username = Some user ->
  In user (users db) /\ User.username user = Some username.
Proof.
  unfold get_user. intros Hfind. apply find_some in Hfind.
  destruct Hfind as [Hin Heq]. split; [exact Hin|].
  apply PyFacts.option_eqb_eq. exact Heq.
Qed.

(** Splits a hypothesis into its cases and components. *)
Ltac unpack H :=
  repeat match goal with
         | H' : _ \/ _ |- _ => destruct H' as [H' | H']
         | H' : _ /\ _ |- _ => let L := fresh in let R := fresh in destruct H' as [L R]
         | H' : exists _, _ |- _ => let x := fresh in destruct H' as [x H']
         | H' : Some _ = Some _ |- _ => injection H' as H'; subst
         end.

Lemma authenticate_user_some pwd_verify db username password user :
  authenticate_user pwd_verify db username password = Ok (Some user) ->
  get_user db username = Some user
  /\ pwd_verify password (User.hashed_password user) = Ok true.
Proof.
  unfold authenticate_user, verify_password.
  destruct (get_user db username) as [u|]; [|discriminate].
  destruct (pwd_verify password (User.hashed_password u)) as [[|]|e] eqn:Hv; cbn;
    try discriminate.
  intros [= <-]. split; [reflexivity|exact Hv].
Qed.

(** X16. A token is issued only to a name that has a user row whose
    stored hash verifies the password given; its subject claim is that
    name, it is signed with the module's key and algorithm, and its type
    is "bearer". *)
Theorem login_token_subject
    (pwd_verify : string -> option string -> result bool) (utcnow : datetime)
    (db : Database) (form_data : OAuth2PasswordRequestForm) (tok : Token) :
  login pwd_verify utcnow db form_data = Ok tok ->
  (exists user,
     In user (users db)
     /\ User.username user = Some (form_username form_data)
     /\ pwd_verify (form_password form_data) (User.hashed_password user) = Ok true)
  /\ dict_get String.eqb (jwt_claims (access_token tok)) "sub"
     = Some (VStr (form_username form_data))
  /\ jwt_key (access_token tok) = SECRET_KEY
  /\ jwt_algorithm (access_token tok) = ALGORITHM
  /\ token_type tok = "bearer".
Proof.
  intros Hlogin.
  destruct (login_ok _ _ _ _ _ Hlogin) as (user & signed & Hauth & Hcreate & ->).
  destruct (authenticate_user_some _ _ _ _ _ Hauth) as [Hget Hverify].
  destruct (get_user_some _ _ _ Hget) as [Hin Hname].
  destruct (create_access_token_ok _ _ _ _ Hcreate) as [_ ->].
  split; [exists user; repeat split; assumption|].
  rewrite Hname. repeat split.
Qed.

Lemma login_token_subject_witness :
  let pwd_verify :=
    fun plain hashed => Ok (option_eqb String.eqb hashed (Some plain)) in
  let tok :=
    mkToken (jwt_encode [("sub", VStr "carol"); ("exp", VDatetime 900005000)]
               SECRET_KEY ALGORITHM) "bearer" in
  (exists user,
     In user (users sample)
     /\ User.username user = Some "carol"
     /\ pwd_verify "s3cret" (User.hashed_password user) = Ok true)
  /\ dict_get String.eqb (jwt_claims (access_token tok)) "sub" = Some (VStr "carol")
  /\ jwt_key (access_token tok) = SECRET_KEY
  /\ jwt_algorithm (access_token tok) = ALGORITHM
  /\ token_type tok = "bearer".
Proof.
  intros pwd_verify tok.
  apply (login_token_subject pwd_verify 5000 sample (mkForm "carol" "s3cret") tok).
  reflexivity.
Defined.

(** X17. [login] raises the 401 [HTTPException] exactly when no user row
    carries the name or the first row that does has a hash that the
    password does not match; besides that it raises what the hashing
    primitive raises on that row's hash, and [OverflowError] where the
    password matches and the clock reading plus 15 minutes is no
    [datetime]; and nothing else. *)
Theorem login_raises
    (pwd_verify : string -> option string -> result bool) (utcnow : datetime)
    (db : Database) (form_data : OAuth2PasswordRequestForm) (e : exn) :
  login pwd_verify utcnow db form_data = Raise e
  <-> (e = HTTPException 401 None
       /\ (get_user db (form_username form_data) = None
           \/ exists user,
                get_user db (form_username form_data) = Some user
                /\ pwd_verify (form_password form_data) (User.hashed_password user)
                   = Ok false))
      \/ (exists user,
            get_user db (form_username form_data) = Some user
            /\ pwd_verify (form_password form_data) (User.hashed_password user)
               = Raise e)
      \/ (e = OverflowError "datetime"
          /\ datetime_in_range (utcnow + timedelta_minutes 15) = false
          /\ exists user,
               get_user db (form_username form_data) = Some user
               /\ pwd_verify (form_password form_data) (User.hashed_password user)
                  = Ok true).
Proof.
  unfold login, authenticate_user, verify_password, create_access_token, datetime_add.
  cbn [timedelta_or].
  destruct (get_user db (form_username form_data)) as [user|]; cbn [Py.bind].
  - destruct (pwd_verify (form_password form_data) (User.hashed_password user))
      as [[|]|e'] eqn:Hv; cbn [Py.bind negb].
    + destruct (datetime_in_range (utcnow + timedelta_minutes 15)) eqn:Hrange;
        cbn [Py.bind]; split; intros H.
      * discriminate.
      * unpack H; congruence.
      * injection H as <-. right. right. split; [reflexivity|]. split; [reflexivity|].
        exists user. split; [reflexivity|exact Hv].
      * unpack H; congruence.
    + split; intros H.
      * injection H as <-. left. split; [reflexivity|]. right.
        exists user. split; [reflexivity|exact Hv].
      * unpack H; congruence.
    + split; intros H.
      * injection H as <-. right. left. exists user. split; [reflexivity|exact Hv].
      * unpack H; congruence.
  - split; intros H.
    + injection H as <-. left. split; [reflexivity|]. left. reflexivity.
    + unpack H; congruence.
Qed.

(** X18. With [lifetime] the [expires_delta] passed if there is one and
    it is not zero, and 15 minutes if none or a zero lifetime is passed:
    where the clock reading plus [lifetime] is a [datetime],
    [create_access_token] returns a token that keeps every claim of
    [data] other than "exp" and has that sum as "exp", replacing one
    that [data] carried; where it is not, it raises [OverflowError]. *)
Theorem create_access_token_claims
    (utcnow : datetime) (data : claims) (expires_delta : option timedelta) :
  let lifetime := timedelta_or expires_delta (timedelta_minutes 15) in
  (expires_delta = None \/ expires_delta = Some 0 -> lifetime = timedelta_minutes 15)
  /\ (forall d, expires_delta = Some d -> d <> 0 -> lifetime = d)
  /\ (datetime_in_range (utcnow + lifetime) = true ->
      exists tok,
        create_access_token utcnow data expires_delta = Ok tok
        /\ expiry tok = Some (VDatetime (utcnow + lifetime))
        /\ (forall k, k <> "exp" ->
              dict_get String.eqb (jwt_claims tok) k = dict_get String.eqb data k))
  /\ (datetime_in_range (utcnow + lifetime) = false ->
      create_access_token utcnow data expires_delta = Raise (OverflowError "datetime")).
Proof.
  intros lifetime. split; [|split; [|split]].
  - intros [-> | ->]; reflexivity.
  - intros d -> Hd. unfold lifetime, timedelta_or.
    destruct (Z.eqb_spec d 0); [contradiction|reflexivity].
  - intros Hrange. unfold create_access_token, datetime_add. fold lifetime.
    rewrite Hrange. cbn [Py.bind]. eexists. split; [reflexivity|]. split.
    + unfold expiry. cbn [jwt_claims].
      apply (dict_get_set_same String.eqb String.eqb_eq).
    + intros k Hk. cbn [jwt_claims].
      apply (dict_get_set_other String.eqb String.eqb_eq). exact Hk.
  - intros Hrange. unfold create_access_token, datetime_add. fold lifetime.
    rewrite Hrange. reflexivity.
Qed.

End AuthExtras.

(* ================================================================== *)
(** * Document requests and the analytics together *)

Module CompositionExtras.
Import Documents DocumentsFacts Crud GroupFacts.

Lemma flush_verified_count (rows : list Document.t) (doc_id : Z) (doc doc' : Document.t) :
  query_get rows doc_id = Some doc ->
  Document.id doc' = doc_id ->
  count (filter (fun d => is_true (Document.verified d)) (flush rows doc'))
  = count (filter (fun d => is_true (Document.verified d)) rows)
    - (if is_true (Document.verified doc) then 1 else 0)
    + (if is_true (Document.verified doc') then 1 else 0).
Proof.
  intros Hget Hid. subst doc_id.
  induction rows as [|r rows IH]; simpl in *; [discriminate|].
  destruct (Z.eqb_spec (Document.id r) (Document.id doc')) as [E|E].
  - injection Hget as ->. simpl.
    destruct (is_true (Document.verified doc)), (is_true (Document.verified doc'));
      rewrite ?count_cons; lia.
  - simpl. specialize (IH Hget).
    destruct (is_true (Document.verified r)); rewrite ?count_cons; lia.
Qed.

(** X19. A document request, whatever its outcome, changes nothing that
    the employee-growth and trucker-distribution operations return, nor
    the employee and trucker figures and the document total of the
    compliance snapshot. *)
Theorem update_document_preserves_analytics
    (utcnow : datetime) (doc_id : Z) (data : DocumentUpdate.t) (db : Database) :
  let db' := snd (update_document utcnow doc_id data db) in
  get_employee_growth db' = get_employee_growth db
  /\ get_trucker_distribution db' = get_trucker_distribution db
  /\ total_employees (get_compliance_data db') = total_employees (get_compliance_data db)
  /\ active_employees (get_compliance_data db') = active_employees (get_compliance_data db)
  /\ total_truckers (get_compliance_data db') = total_truckers (get_compliance_data db)
  /\ active_truckers (get_compliance_data db') = active_truckers (get_compliance_data db)
  /\ total_documents (get_compliance_data db') = total_documents (get_compliance_data db).
Proof.
  intros db'.
  assert (Hframe : employees db' = employees db /\ truckers db' = truckers db
                   /\ List.length (documents db') = List.length (documents db)).
  { unfold db', update_document, update_document_in, get.
    destruct (query_get (documents db) doc_id) as [doc|];
      [|destruct (sqlite_integer doc_id); cbn; repeat split].
    destruct (assign_fields module_names utcnow data doc) as [doc'|e]; cbn; repeat split.
    rewrite <- (length_map Document.id (flush (documents db) doc')).
    rewrite DocumentsExtras.flush_ids. apply length_map. }
  destruct Hframe as (Hemp & Htr & Hlen).
  unfold get_employee_growth, monthly_rows, get_trucker_distribution, province_rows,
    company_rows, get_compliance_data, count.
  cbn [total_employees active_employees total_truckers active_truckers total_documents].
  rewrite Hemp, Htr, Hlen. repeat split.
Qed.

(** X20. A request that succeeded changes the number of verified
    documents of the compliance snapshot by the change made to the
    addressed document: one less if it was verified, one more if the
    request has [verified=true]. *)
Theorem update_document_verified_count
    (utcnow : datetime) (doc_id : Z) (data : DocumentUpdate.t)
    (db db' : Database) (doc : Document.t) :
  query_get (documents db) doc_id = Some doc ->
  update_document utcnow doc_id data db = (Ok tt, db') ->
  verified_documents (get_compliance_data db')
  = verified_documents (get_compliance_data db)
    - (if is_true (Document.verified doc) then 1 else 0)
    + (if DocumentUpdate.verified data then 1 else 0).
Proof.
  intros Hget Hrun.
  destruct (update_document_in_ok _ _ _ _ _ _ Hrun)
    as (doc0 & doc' & Hget0 & Hassign & -> & _).
  rewrite Hget in Hget0. injection Hget0 as <-.
  assert (Hid : Document.id doc' = doc_id).
  { rewrite (assign_fields_id _ _ _ _ _ Hassign). apply (query_get_id _ _ _ Hget). }
  assert (Hv : Document.verified doc' = Some (DocumentUpdate.verified data)).
  { revert Hassign. unfold assign_fields. cbn [set_verified Document.verification_date].
    destruct (DocumentUpdate.verified data), (Document.verification_date doc); cbn;
      intros [= <-]; reflexivity. }
  unfold get_compliance_data. cbn [verified_documents commit documents].
  rewrite (flush_verified_count _ _ doc doc' Hget Hid), Hv.
  destruct (DocumentUpdate.verified data); reflexivity.
Qed.

Lemma update_document_verified_count_witness :
  let db' := snd (update_document 500 1 (DocumentUpdate.mk false None) sample) in
  verified_documents (get_compliance_data db')
  = verified_documents (get_compliance_data sample) - 1 + 0.
Proof.
  intros db'.
  apply (update_document_verified_count 500 1 (DocumentUpdate.mk false None) sample db'
           (Document.mk 1 (Some "licence") (Some true) (Some 100) (Some "alice")));
    reflexivity.
Defined.

End CompositionExtras.
